(** * next-starter: the three-layer authorization pipeline

    A shallow embedding of the authentication and authorization code of the
    starter (proxy.ts, lib/auth-utils.ts, app/actions/user-actions.ts,
    app/api/user/settings/route.ts, auth.ts) and the properties its
    specification states about it.

    Conventions of the embedding
    - [async]/[await] code is sequential: a computation is a function from
      the state of the outside world to a completion (returned value or
      thrown value) and the next state of the world.
    - Auth.js ([auth()]), the Prisma client, [revalidatePath] and the clock
      are external collaborators: they are the fields of the [Platform]
      class, and the handlers are written against that interface.
    - JavaScript strings are Rocq strings, one character per code unit. *)

From Stdlib Require Import String Ascii ZArith List Lia Bool.
From stdpp Require Import gmap strings list fin_maps.

Local Open Scope string_scope.
Local Open Scope Z_scope.

(* ===================================================================== *)
(** ** Values thrown and the computation monad *)
(* ===================================================================== *)

(** What a [catch] clause can observe of a thrown value: whether it is an
    [Error] instance, its [name] and its [message]. *)
Record Thrown := mkThrown {
  instanceofError : bool;
  error_name : string;
  error_message : string
}.

(** [new Error(message)] and its subclasses, which set [this.name]. *)
Definition JsError (name message : string) : Thrown :=
  {| instanceofError := true; error_name := name; error_message := message |}.

Inductive Completion (A : Type) : Type :=
  | Returned (a : A)
  | Threw (e : Thrown).
Arguments Returned {A} a.
Arguments Threw {A} e.

Definition M (W A : Type) : Type := W -> Completion A * W.

Definition ret {W A} (a : A) : M W A := fun w => (Returned a, w).

Definition throw {W A} (e : Thrown) : M W A := fun w => (Threw e, w).

Definition bind {W A B} (c : M W A) (k : A -> M W B) : M W B :=
  fun w =>
    match c w with
    | (Returned a, w') => k a w'
    | (Threw e, w') => (Threw e, w')
    end.

(** [try { body } catch (error) { handler }] *)
Definition try_catch {W A} (body : M W A) (handler : Thrown -> M W A) : M W A :=
  fun w =>
    match body w with
    | (Returned a, w') => (Returned a, w')
    | (Threw e, w') => handler e w'
    end.

Declare Scope js_scope.
Delimit Scope js_scope with js.
Notation "x <- c ;; k" := (bind c (fun x => k))
  (at level 100, c at next level, right associativity) : js_scope.
Notation "c ;;; k" := (bind c (fun _ => k))
  (at level 100, right associativity) : js_scope.
Local Open Scope js_scope.

(** [haystack.includes(needle)] *)
Fixpoint includes (haystack needle : string) : bool :=
  String.prefix needle haystack ||
  match haystack with
  | EmptyString => false
  | String _ rest => includes rest needle
  end.

(* ===================================================================== *)
(** ** Data model *)
(* ===================================================================== *)

(** The [user] object of an Auth.js session. *)
Record SessionUser := mkSessionUser {
  su_id : string;
  su_name : option string;
  su_email : option string
}.

(** An Auth.js session: [{ user?, expires }]. *)
Record Session := mkSession {
  session_user : option SessionUser;
  session_expires : string
}.

(** [session?.user]: undefined when the session is null or has no user. *)
Definition optional_user (session : option Session) : option SessionUser :=
  match session with
  | Some s => session_user s
  | None => None
  end.

(** A row of the user table as the handlers select it. Timestamps are
    milliseconds since the epoch ([Date.getTime()]). *)
Record UserRow := mkUserRow {
  user_id : string;
  user_name : option string;
  user_email : option string;
  user_createdAt : Z
}.

(** The [data] argument of [prisma.user.update]: a field that is [None] is
    left as it is. *)
Record UserUpdateInput := mkUserUpdateInput {
  set_name : option string;
  set_email : option string
}.

(** Parsed JSON values. *)
#[local] Unset Elimination Schemes.
Inductive json : Type :=
  | JNull
  | JBool (b : bool)
  | JNum (n : Z)
  | JStr (s : string)
  | JArr (items : list json)
  | JObj (fields : list (string * json)).
#[local] Set Elimination Schemes.

(** [obj[key]] on a parsed object: [None] is [undefined]. *)
Fixpoint json_get (key : string) (fields : list (string * json)) : option json :=
  match fields with
  | [] => None
  | (k, v) :: rest => if String.eqb k key then Some v else json_get key rest
  end.

(** The external collaborators of the handlers. *)
Class Platform (W : Type) := {
  (** [auth()] of Auth.js: resolves the session of the current request. *)
  auth : M W (option Session);
  (** [prisma.user.update({ where: { id }, data })]; returns the new row. *)
  prisma_user_update : string -> UserUpdateInput -> M W UserRow;
  (** [tx.user.delete({ where: { id } })] *)
  prisma_user_delete : string -> M W UserRow;
  (** [prisma.user.findUnique({ where: { id } })] *)
  prisma_user_findUnique : string -> M W (option UserRow);
  (** [prisma.$transaction(async (tx) => body)] *)
  prisma_transaction : forall A : Type, M W A -> M W A;
  (** [revalidatePath(path)] of next/cache *)
  revalidatePath : string -> M W unit;
  (** [Date.now()] *)
  Date_now : W -> Z;
  (** the pattern behind zod's [z.string().email()] *)
  zod_isEmail : string -> bool
}.

(* ===================================================================== *)
(** ** proxy.ts: the edge checkpoint *)
(* ===================================================================== *)

Module Proxy.

Definition authRoutes : list string :=
  ["/auth/signin"; "/auth/error"; "/auth/signout"; "/api/auth"].

Definition publicRoutes : list string := [].

(** [pathname.startsWith(route)] *)
Definition startsWith (s pre : string) : bool := String.prefix pre s.

Definition isRouteMatch (pathname : string) (routes : list string) : bool :=
  existsb (fun route =>
    if String.eqb pathname route then true
    else if startsWith route "/api/" && startsWith pathname route then true
    else if startsWith route "/auth" && startsWith pathname route then true
    else false) routes.

(** The part of a [NextRequest] the proxy reads: [request.nextUrl.pathname]
    and the origin of [request.url]. *)
Record NextRequest := mkNextRequest {
  request_origin : string;
  nextUrl_pathname : string
}.

(** A [URL]: origin, path and the decoded entries of [searchParams]. *)
Record URL := mkURL {
  url_origin : string;
  url_pathname : string;
  url_searchParams : list (string * string)
}.

(** [new URL(path, base)] for an absolute path. *)
Definition new_URL (path : string) (request : NextRequest) : URL :=
  {| url_origin := request_origin request;
     url_pathname := path;
     url_searchParams := [] |}.

(** [searchParams.set(key, value)]: the first entry named [key] takes the
    value and later ones are dropped; without one the entry is appended. *)
Fixpoint searchParams_set (key value : string) (ps : list (string * string))
  : list (string * string) :=
  match ps with
  | [] => [(key, value)]
  | (k, v) :: rest =>
      if String.eqb k key
      then (key, value) :: List.filter (fun p => negb (String.eqb (fst p) key)) rest
      else (k, v) :: searchParams_set key value rest
  end.

(** [searchParams.get(key)] *)
Fixpoint searchParams_get (key : string) (ps : list (string * string))
  : option string :=
  match ps with
  | [] => None
  | (k, v) :: rest => if String.eqb k key then Some v else searchParams_get key rest
  end.

Inductive NextResponse :=
  | NextResponse_next
  | NextResponse_redirect (target : URL).

(** The negative lookahead of [config.matcher], tried on the path after its
    leading slash. Its alternatives are the literal prefixes api/auth, auth,
    _next/static and _next/image, the prefix favicon.ico whose dot is the
    wildcard of the pattern, and a last alternative that holds of every
    path with a dot in it. *)
Definition favicon_ico (rest : string) : bool :=
  startsWith rest "favicon" &&
  match String.substring 7 4 rest with
  | String _ "ico" => true
  | _ => false
  end.

Definition matcher_lookahead (rest : string) : bool :=
  startsWith rest "api/auth" || startsWith rest "auth" ||
  startsWith rest "_next/static" || startsWith rest "_next/image" ||
  favicon_ico rest || includes rest ".".

(** [config.matcher]: whether the proxy runs for a path. *)
Definition config_matcher (pathname : string) : bool :=
  match pathname with
  | String "/" rest => negb (matcher_lookahead rest)
  | _ => false
  end.

Section WithPlatform.
Context {W : Type} `{Platform W}.

Definition proxy (request : NextRequest) : M W NextResponse :=
  let pathname := nextUrl_pathname request in
  if isRouteMatch pathname authRoutes then ret NextResponse_next
  else if isRouteMatch pathname publicRoutes then ret NextResponse_next
  else
    session <- auth ;;
    match optional_user session with
    | None =>
        let signInUrl := new_URL "/auth/signin" request in
        let signInUrl :=
          {| url_origin := url_origin signInUrl;
             url_pathname := url_pathname signInUrl;
             url_searchParams :=
               searchParams_set "callbackUrl" pathname (url_searchParams signInUrl) |} in
        ret (NextResponse_redirect signInUrl)
    | Some _ => ret NextResponse_next
    end.

End WithPlatform.

End Proxy.

(* ===================================================================== *)
(** ** auth.ts: the [authorized] callback of the Auth.js configuration *)
(* ===================================================================== *)

Module AuthConfig.

(** The callback of the configuration whose home page is public
    ([if (pathname === "/") return true; return !!auth;]). *)
Definition authorized (auth : option Session) (pathname : string) : bool :=
  if String.eqb pathname "/" then true
  else match auth with Some _ => true | None => false end.

(** The callback of the later revision of the configuration, whose body is
    [return !!auth;]. *)
Definition authorized_protected_home (auth : option Session) (pathname : string) : bool :=
  match auth with Some _ => true | None => false end.

End AuthConfig.

(* ===================================================================== *)
(** ** lib/auth-utils.ts *)
(* ===================================================================== *)

Module AuthUtils.

(** [class AuthenticationError extends Error] *)
Definition AuthenticationError (message : string) : Thrown :=
  JsError "AuthenticationError" message.

(** A session after the [!session?.user] test: its user is present. *)
Record AuthedSession := mkAuthedSession {
  authed_user : SessionUser;
  authed_expires : string
}.

(** A [Response] built by [Response.json] or [NextResponse.json]. *)
Record Response := mkResponse {
  status : Z;
  body : json
}.

(** [NextResponse.json(body)] answers 200. *)
Definition Response_json (body : json) (status : Z) : Response :=
  {| status := status; body := body |}.

(** The union returned by [requireApiAuth]: [{ error, response }] or
    [{ user }]; the caller discriminates with ["error" in authResult]. *)
Inductive ApiAuthResult :=
  | ApiAuth_error (error : string) (response : Response)
  | ApiAuth_user (user : SessionUser).

Section WithPlatform.
Context {W : Type} `{Platform W}.

Definition requireAuth : M W AuthedSession :=
  session <- auth ;;
  match session with
  | Some s =>
      match session_user s with
      | Some u => ret {| authed_user := u; authed_expires := session_expires s |}
      | None =>
          throw (AuthenticationError "You must be signed in to access this resource")
      end
  | None =>
      throw (AuthenticationError "You must be signed in to access this resource")
  end.

Definition requireUser : M W SessionUser :=
  session <- requireAuth ;;
  ret (authed_user session).

Definition requireApiAuth : M W ApiAuthResult :=
  session <- auth ;;
  match optional_user session with
  | None =>
      ret (ApiAuth_error "Unauthorized"
             (Response_json (JObj [("error", JStr "Authentication required")]) 401))
  | Some user => ret (ApiAuth_user user)
  end.

End WithPlatform.

End AuthUtils.

(* ===================================================================== *)
(** ** The zod schemas *)
(* ===================================================================== *)

Module Zod.

Record ZodIssue := mkIssue {
  issue_path : list string;
  issue_message : string
}.

Inductive SafeParse (A : Type) : Type :=
  | ParseSuccess (data : A)
  | ParseError (errors : list ZodIssue).
Arguments ParseSuccess {A} data.
Arguments ParseError {A} errors.

(** [s.length], in code units. *)
Definition js_length (s : string) : Z := Z.of_nat (String.length s).

(** The name zod gives the type of a value in an [invalid_type] issue. *)
Definition parsedType (v : json) : string :=
  match v with
  | JNull => "null"
  | JBool _ => "boolean"
  | JNum _ => "number"
  | JStr _ => "string"
  | JArr _ => "array"
  | JObj _ => "object"
  end.

(** [error.flatten().fieldErrors]: the messages of the issues that have a
    path, grouped under the first element of the path. *)
Fixpoint fieldErrors_add (key message : string) (acc : list (string * list string))
  : list (string * list string) :=
  match acc with
  | [] => [(key, [message])]
  | (k, ms) :: rest =>
      if String.eqb k key then (k, (ms ++ [message])%list) :: rest
      else (k, ms) :: fieldErrors_add key message rest
  end.

Definition fieldErrors (errors : list ZodIssue) : list (string * list string) :=
  fold_left (fun acc i =>
               match issue_path i with
               | [] => acc
               | k :: _ => fieldErrors_add k (issue_message i) acc
               end) errors [].

Definition fieldErrors_json (errors : list ZodIssue) : json :=
  JObj (map (fun kv => (fst kv, JArr (map JStr (snd kv)))) (fieldErrors errors)).

End Zod.

(* ===================================================================== *)
(** ** app/actions/user-actions.ts: the server actions *)
(* ===================================================================== *)

Module UserActions.
Import AuthUtils Zod.

Inductive ActionResult (T : Type) : Type :=
  | Success (data : T)
  | Failure (error : string).
Arguments Success {T} data.
Arguments Failure {T} error.

(** An entry of a [FormData]: a string or a [File]. *)
Inductive FormDataEntryValue :=
  | FormString (value : string)
  | FormFile (filename : string).

Definition FormData := list (string * FormDataEntryValue).

(** [formData.get(name)]: the first entry of that name, or null. *)
Fixpoint FormData_get (name : string) (formData : FormData)
  : option FormDataEntryValue :=
  match formData with
  | [] => None
  | (k, v) :: rest => if String.eqb k name then Some v else FormData_get name rest
  end.

(** [a || b] on strings: the empty string is falsy. *)
Definition or_string (a b : string) : string :=
  if String.eqb a "" then b else a.

(** [a || b] where [a] is a string or null. *)
Definition or_null (a : option string) (b : string) : string :=
  match a with
  | Some s => or_string s b
  | None => b
  end.

(** [updateProfileSchema.safeParse({ name })] with
    [name: z.string().min(1, "Name must not be empty").max(100, "Name too long")]. *)
Definition updateProfileSchema_safeParse (name : option FormDataEntryValue)
  : SafeParse string :=
  match name with
  | None => ParseError [mkIssue ["name"] "Expected string, received null"]
  | Some (FormFile _) => ParseError [mkIssue ["name"] "Expected string, received object"]
  | Some (FormString s) =>
      let too_small :=
        if js_length s <? 1 then [mkIssue ["name"] "Name must not be empty"] else [] in
      let too_big :=
        if 100 <? js_length s then [mkIssue ["name"] "Name too long"] else [] in
      match (too_small ++ too_big)%list with
      | [] => ParseSuccess s
      | errors => ParseError errors
      end
  end.

Record ProfileData := mkProfileData {
  profile_name : string;
  profile_email : string
}.

Record DeletedData := mkDeletedData {
  deleted : bool
}.

Record StatsData := mkStatsData {
  accountAge : Z;
  lastSignIn : option Z
}.

Section WithPlatform.
Context {W : Type} `{Platform W}.

Definition updateProfile (formData : FormData) : M W (ActionResult ProfileData) :=
  try_catch
    (user <- requireUser ;;
     let name := FormData_get "name" formData in
     match updateProfileSchema_safeParse name with
     | ParseError errors =>
         ret (Failure
                (match errors with
                 | e :: _ => or_string (issue_message e) "Invalid input"
                 | [] => "Invalid input"
                 end))
     | ParseSuccess data =>
         updatedUser <- prisma_user_update (su_id user)
                          {| set_name := Some data; set_email := None |} ;;
         (revalidatePath "/dashboard" ;;;
          revalidatePath "/" ;;;
          ret (Success {| profile_name := or_null (user_name updatedUser) "";
                          profile_email := or_null (user_email updatedUser) "" |}))
     end)
    (fun error =>
       if instanceofError error && String.eqb (error_name error) "AuthenticationError"
       then ret (Failure "You must be signed in to update your profile")
       else ret (Failure "Failed to update profile. Please try again.")).

Definition deleteAccount : M W (ActionResult DeletedData) :=
  try_catch
    (user <- requireUser ;;
     (prisma_transaction _ (prisma_user_delete (su_id user) ;;; ret tt) ;;;
      ret (Success {| deleted := true |})))
    (fun error =>
       if instanceofError error && String.eqb (error_name error) "AuthenticationError"
       then ret (Failure "You must be signed in to delete your account")
       else ret (Failure "Failed to delete account. Please try again.")).

Definition getUserStats : M W (ActionResult StatsData) :=
  try_catch
    (session <- requireAuth ;;
     user <- prisma_user_findUnique (su_id (authed_user session)) ;;
     match user with
     | None => ret (Failure "User not found")
     | Some user =>
         fun w =>
           let accountAgeInDays :=
             (Date_now w - user_createdAt user) / (1000 * 60 * 60 * 24) in
           ret (Success {| accountAge := accountAgeInDays; lastSignIn := None |}) w
     end)
    (fun error =>
       if instanceofError error && String.eqb (error_name error) "AuthenticationError"
       then ret (Failure "You must be signed in to view stats")
       else ret (Failure "Failed to fetch stats")).

End WithPlatform.

End UserActions.

(* ===================================================================== *)
(** ** app/api/user/settings/route.ts *)
(* ===================================================================== *)

Module SettingsRoute.
Import AuthUtils Zod.

(** The body of a [Request] as [request.json()] sees it: text that parses
    to a JSON value, or text that does not, for which the promise rejects
    with a [SyntaxError] carrying the engine's message. *)
Inductive RequestBody :=
  | ValidJson (value : json)
  | InvalidJson (syntaxErrorMessage : string).

Record Request := mkRequest {
  request_body : RequestBody
}.

Record SettingsInput := mkSettingsInput {
  input_name : option string;
  input_email : option string
}.

(** The user row as [select: { id, name, email }] returns it. *)
Definition nullable (o : option string) : json :=
  match o with
  | Some s => JStr s
  | None => JNull
  end.

Definition settings_json (u : UserRow) : json :=
  JObj [("id", JStr (user_id u)); ("name", nullable (user_name u));
        ("email", nullable (user_email u))].

Section WithPlatform.
Context {W : Type} `{Platform W}.

(** [request.json()] *)
Definition Request_json (request : Request) : M W json :=
  match request_body request with
  | ValidJson value => ret value
  | InvalidJson message => throw (JsError "SyntaxError" message)
  end.

(** [name: z.string().min(1).max(100).optional()] on [body.name] *)
Definition parse_name (v : option json) : option string * list ZodIssue :=
  match v with
  | None => (None, [])
  | Some (JStr s) =>
      (Some s,
       ((if js_length s <? 1
         then [mkIssue ["name"] "String must contain at least 1 character(s)"]
         else []) ++
        (if 100 <? js_length s
         then [mkIssue ["name"] "String must contain at most 100 character(s)"]
         else []))%list)
  | Some other =>
      (None, [mkIssue ["name"] ("Expected string, received " ++ parsedType other)])
  end.

(** [email: z.string().email().optional()] on [body.email] *)
Definition parse_email (v : option json) : option string * list ZodIssue :=
  match v with
  | None => (None, [])
  | Some (JStr s) =>
      (Some s, if zod_isEmail s then [] else [mkIssue ["email"] "Invalid email"])
  | Some other =>
      (None, [mkIssue ["email"] ("Expected string, received " ++ parsedType other)])
  end.

(** [updateSettingsSchema.safeParse(body)]: a [z.object] reads the keys of
    its shape and drops every other key of the body. *)
Definition updateSettingsSchema_safeParse (body : json) : SafeParse SettingsInput :=
  match body with
  | JObj fields =>
      let '(name, name_issues) := parse_name (json_get "name" fields) in
      let '(email, email_issues) := parse_email (json_get "email" fields) in
      match (name_issues ++ email_issues)%list with
      | [] => ParseSuccess {| input_name := name; input_email := email |}
      | errors => ParseError errors
      end
  | other => ParseError [mkIssue [] ("Expected object, received " ++ parsedType other)]
  end.

Definition GET : M W Response :=
  authResult <- requireApiAuth ;;
  match authResult with
  | ApiAuth_error _ response => ret response
  | ApiAuth_user user =>
      try_catch
        (userSettings <- prisma_user_findUnique (su_id user) ;;
         match userSettings with
         | None => ret (Response_json (JObj [("error", JStr "User not found")]) 404)
         | Some row => ret (Response_json (JObj [("settings", settings_json row)]) 200)
         end)
        (fun error =>
           ret (Response_json (JObj [("error", JStr "Internal server error")]) 500))
  end.

Definition PUT (request : Request) : M W Response :=
  authResult <- requireApiAuth ;;
  match authResult with
  | ApiAuth_error _ response => ret response
  | ApiAuth_user user =>
      try_catch
        (body <- Request_json request ;;
         match updateSettingsSchema_safeParse body with
         | ParseError errors =>
             ret (Response_json
                    (JObj [("error", JStr "Invalid input");
                           ("details", fieldErrors_json errors)]) 400)
         | ParseSuccess data =>
             updatedUser <- prisma_user_update (su_id user)
                              {| set_name := input_name data;
                                 set_email := input_email data |} ;;
             ret (Response_json
                    (JObj [("settings", settings_json updatedUser);
                           ("message", JStr "Settings updated successfully")]) 200)
         end)
        (fun error =>
           if instanceofError error && includes (error_message error) "Unique constraint"
           then ret (Response_json (JObj [("error", JStr "Email already in use")]) 409)
           else ret (Response_json (JObj [("error", JStr "Internal server error")]) 500))
  end.

End WithPlatform.

End SettingsRoute.

(* ===================================================================== *)
(** ** The user table *)
(* ===================================================================== *)

Module Store.

(** Modelled from the spec: the user table behind the Prisma client
    (prisma/schema.prisma and the generated client are not part of the
    sources). Section 3 of the specification: an Account has a unique
    identifier, an optional name, an optional email that is unique across
    accounts when present, and a creation timestamp; an account owns its
    sessions, and deleting it cascades to them. An update or delete of
    an absent row and an update that would break the uniqueness of email
    throw and leave the table as it was; the message of the latter is
    Prisma's "Unique constraint failed ...". *)
Record World := mkWorld {
  users : gmap string UserRow;
  (** the session the cookie of the current request resolves to *)
  current_session : option Session;
  (** the clock, in milliseconds *)
  clock : Z
}.

Definition with_users (w : World) (table : gmap string UserRow) : World :=
  {| users := table; current_session := current_session w; clock := clock w |}.

Definition email_used_by_other (id email : string) (table : gmap string UserRow) : bool :=
  bool_decide (map_Exists (fun k row => k <> id /\ user_email row = Some email) table).

Definition RecordNotFound : Thrown :=
  JsError "PrismaClientKnownRequestError"
    "An operation failed because it depends on one or more records that were required but not found.".

Definition UniqueConstraintFailed : Thrown :=
  JsError "PrismaClientKnownRequestError"
    "Unique constraint failed on the fields: (`email`)".

Definition apply_update (data : UserUpdateInput) (row : UserRow) : UserRow :=
  {| user_id := user_id row;
     user_name := match set_name data with Some n => Some n | None => user_name row end;
     user_email := match set_email data with Some e => Some e | None => user_email row end;
     user_createdAt := user_createdAt row |}.

Definition user_update (id : string) (data : UserUpdateInput) : M World UserRow :=
  fun w =>
    match users w !! id with
    | None => (Threw RecordNotFound, w)
    | Some row =>
        match set_email data with
        | Some e =>
            if email_used_by_other id e (users w)
            then (Threw UniqueConstraintFailed, w)
            else (Returned (apply_update data row),
                  with_users w (<[id := apply_update data row]> (users w)))
        | None =>
            (Returned (apply_update data row),
             with_users w (<[id := apply_update data row]> (users w)))
        end
    end.

(** Deleting an account cascades to its sessions: the session of the
    request stops resolving when it is a session of the deleted account. *)
Definition sessions_without (id : string) (session : option Session) : option Session :=
  match optional_user session with
  | Some u => if String.eqb (su_id u) id then None else session
  | None => session
  end.

Definition user_delete (id : string) : M World UserRow :=
  fun w =>
    match users w !! id with
    | None => (Threw RecordNotFound, w)
    | Some row =>
        (Returned row,
         {| users := delete id (users w);
            current_session := sessions_without id (current_session w);
            clock := clock w |})
    end.

Definition user_findUnique (id : string) : M World (option UserRow) :=
  fun w => (Returned (users w !! id), w).

(** A transaction whose body throws is rolled back. *)
Definition transaction (A : Type) (body : M World A) : M World A :=
  fun w =>
    match body w with
    | (Returned a, w') => (Returned a, w')
    | (Threw e, _) => (Threw e, w)
    end.

(** The platform over the table: session resolution reads the session of
    the request, revalidation does nothing to the table, and [isEmail]
    stands for zod's pattern. *)
Definition platform (isEmail : string -> bool) : Platform World :=
  {| auth := fun w => (Returned (current_session w), w);
     prisma_user_update := user_update;
     prisma_user_delete := user_delete;
     prisma_user_findUnique := user_findUnique;
     prisma_transaction := transaction;
     revalidatePath := fun _ => ret tt;
     Date_now := clock;
     zod_isEmail := isEmail |}.

(** A pattern for concrete runs: some text, an at sign, some text. *)
Fixpoint has_at (s : string) : bool :=
  match s with
  | EmptyString => false
  | String c rest =>
      match rest with
      | String "@" (String _ _) => true
      | _ => has_at rest
      end
  end.

End Store.

(* ===================================================================== *)
(** ** The authentication ceremony *)
(* ===================================================================== *)

Module Ceremony.

Inductive Purpose := Register | Authenticate.

Definition Purpose_eqb (a b : Purpose) : bool :=
  match a, b with
  | Register, Register | Authenticate, Authenticate => true
  | _, _ => false
  end.

Record Credential := mkCredential {
  cred_owner : string;
  cred_publicKey : string;
  cred_counter : N
}.

Record Challenge := mkChallenge {
  ch_rpId : string;
  ch_origin : string;
  ch_purpose : Purpose;
  ch_expires : Z
}.

(** Credentials by credential identifier, live challenges by nonce. *)
Record State := mkState {
  credentials : gmap string Credential;
  challenges : gmap string Challenge
}.

Record Assertion := mkAssertion {
  as_credentialId : string;
  as_origin : string;
  as_rpId : string;
  as_challenge : string;
  as_counter : N;
  as_signature : string
}.

Inductive CeremonyError :=
  | UnknownCredential
  | ChallengeInvalid
  | OriginMismatch
  | RelyingPartyMismatch
  | SignatureInvalid
  | CounterRegression.

Record Config := mkConfig {
  rpID : string;
  origin : string
}.

Section WithVerifier.
(** The signature check of the authenticator's public key. *)
Variable verify_signature : string -> Assertion -> bool.

(** Step (4): strictly greater than the stored counter, or both zero. *)
Definition counter_accepted (presented stored : N) : bool :=
  (stored <? presented)%N || ((presented =? 0)%N && (stored =? 0)%N).

(** Modelled from the spec: completion of the authentication ceremony,
    which the repository leaves to the Auth.js passkey provider. Section
    4.1, Authentication, steps (2) to (5): resolve the credential and
    reject if unknown; verify origin, relying party, challenge (unexpired,
    unconsumed, of purpose authenticate) and signature; verify the counter;
    store the new counter. The challenge is consumed by the attempt,
    whether it succeeds or fails. *)
Definition complete_authentication (cfg : Config) (now : Z) (a : Assertion) (st : State)
  : (CeremonyError + string) * State :=
  match credentials st !! as_credentialId a with
  | None => (inl UnknownCredential, st)
  | Some cred =>
      match challenges st !! as_challenge a with
      | None => (inl ChallengeInvalid, st)
      | Some ch =>
          let st1 := {| credentials := credentials st;
                        challenges := delete (as_challenge a) (challenges st) |} in
          if negb (String.eqb (as_origin a) (origin cfg)
                   && String.eqb (ch_origin ch) (origin cfg))
          then (inl OriginMismatch, st1)
          else if negb (String.eqb (as_rpId a) (rpID cfg)
                        && String.eqb (ch_rpId ch) (rpID cfg))
          then (inl RelyingPartyMismatch, st1)
          else if negb (Purpose_eqb (ch_purpose ch) Authenticate && (now <? ch_expires ch))
          then (inl ChallengeInvalid, st1)
          else if negb (verify_signature (cred_publicKey cred) a)
          then (inl SignatureInvalid, st1)
          else if negb (counter_accepted (as_counter a) (cred_counter cred))
          then (inl CounterRegression, st1)
          else
            (inr (cred_owner cred),
             {| credentials :=
                  <[as_credentialId a :=
                      {| cred_owner := cred_owner cred;
                         cred_publicKey := cred_publicKey cred;
                         cred_counter := as_counter a |}]> (credentials st);
                challenges := challenges st1 |})
      end
  end.

End WithVerifier.

End Ceremony.

(* ===================================================================== *)
(** ** lib/auth-utils.ts: the page guard *)
(* ===================================================================== *)

Module PageGuard.
Import AuthUtils.

(** How the render of a page ends: with its view, or with
    [redirect(url)] of next/navigation, which throws the framework's
    redirect signal and so abandons the rest of the render. *)
Inductive PageResult (V : Type) : Type :=
  | Rendered (view : V)
  | Redirect (url : string).
Arguments Rendered {V} view.
Arguments Redirect {V} url.

(** The characters [encodeURIComponent] leaves as they are: letters,
    digits and - _ . ! ~ * ' ( ) *)
Definition is_unreserved (c : ascii) : bool :=
  let n := nat_of_ascii c in
  ((65 <=? n) && (n <=? 90) || (97 <=? n) && (n <=? 122) || (48 <=? n) && (n <=? 57))%nat
  || existsb (Ascii.eqb c)
       ["-"; "_"; "."; "!"; "~"; "*"; "'"; "("; ")"]%char.

Definition hex_digit (n : nat) : ascii :=
  match String.get n "0123456789ABCDEF" with
  | Some d => d
  | None => "0"%char
  end.

(** One escaped byte: a percent sign and two upper-case hex digits. *)
Definition percent (byte : nat) : string :=
  String "%" (String (hex_digit (byte / 16)) (String (hex_digit (byte mod 16)) "")).

(** A JavaScript string as the sequence of its UTF-16 code units, each a
    number below 65536. *)
Definition JsString := list N.

(** The code units of a string of this development. *)
Definition code_units (s : string) : JsString :=
  map N_of_ascii (list_ascii_of_string s).

Definition unreserved_unit (c : N) : bool :=
  (c <? 128)%N && is_unreserved (ascii_of_N c).

(** The two halves of a surrogate pair. *)
Definition is_lead (c : N) : bool := (0xD800 <=? c)%N && (c <=? 0xDBFF)%N.
Definition is_trail (c : N) : bool := (0xDC00 <=? c)%N && (c <=? 0xDFFF)%N.

(** The UTF-8 octets of a code point, each escaped. *)
Definition utf8_escaped (cp : N) : string :=
  if (cp <? 0x80)%N then percent (N.to_nat cp)
  else if (cp <? 0x800)%N then
    percent (N.to_nat (192 + cp / 64)) ++ percent (N.to_nat (128 + cp mod 64))
  else if (cp <? 0x10000)%N then
    percent (N.to_nat (224 + cp / 4096)) ++
    percent (N.to_nat (128 + (cp / 64) mod 64)) ++
    percent (N.to_nat (128 + cp mod 64))
  else
    percent (N.to_nat (240 + cp / 262144)) ++
    percent (N.to_nat (128 + (cp / 4096) mod 64)) ++
    percent (N.to_nat (128 + (cp / 64) mod 64)) ++
    percent (N.to_nat (128 + cp mod 64)).

(** The error [encodeURIComponent] throws on an unpaired surrogate. *)
Definition URIError : Thrown := JsError "URIError" "URI malformed".

(** [encodeURIComponent(units)]: [None] when it throws [URIError]. An
    unreserved character stays; any other code point is escaped, a lead
    surrogate together with the trail surrogate after it; a surrogate
    without its other half makes the call throw. *)
Fixpoint encodeURIComponent (units : JsString) : option string :=
  match units with
  | [] => Some ""
  | c :: rest =>
      if unreserved_unit c then
        option_map (String (ascii_of_N c)) (encodeURIComponent rest)
      else if is_lead c then
        match rest with
        | d :: rest' =>
            if is_trail d then
              option_map
                (String.append
                   (utf8_escaped (0x10000 + (c - 0xD800) * 0x400 + (d - 0xDC00))))
                (encodeURIComponent rest')
            else None
        | [] => None
        end
      else if is_trail c then None
      else option_map (String.append (utf8_escaped c)) (encodeURIComponent rest)
  end.

Section WithPlatform.
Context {W : Type} `{Platform W}.

(** [redirect(url)] *)
Definition redirect {V : Type} (url : string) : M W (PageResult V) :=
  ret (Redirect url).

(** [requireAuthWithRedirect(redirectTo?)], its argument given by its code
    units; an absent and an empty [redirectTo] are both falsy. The URL is
    built only when there is no user. *)
Definition requireAuthWithRedirect_units (redirectTo : option JsString)
  : M W (PageResult AuthedSession) :=
  session <- auth ;;
  let deny : M W (PageResult AuthedSession) :=
    match redirectTo with
    | Some (c :: units) =>
        match encodeURIComponent (c :: units) with
        | Some escaped => redirect ("/auth/signin?callbackUrl=" ++ escaped)
        | None => throw URIError
        end
    | Some [] => redirect "/auth/signin"
    | None => redirect "/auth/signin"
    end in
  match session with
  | Some s =>
      match session_user s with
      | Some u => ret (Rendered {| authed_user := u; authed_expires := session_expires s |})
      | None => deny
      end
  | None => deny
  end.

(** [requireAuthWithRedirect(redirectTo?)] called with a string of this
    development. *)
Definition requireAuthWithRedirect (redirectTo : option string)
  : M W (PageResult AuthedSession) :=
  requireAuthWithRedirect_units (option_map code_units redirectTo).

Definition getOptionalAuth : M W (option Session) := auth.

End WithPlatform.

End PageGuard.

(* ===================================================================== *)
(** ** The pages *)
(* ===================================================================== *)

Module Pages.
Import AuthUtils PageGuard.

(** [a || b] where both are strings or null. *)
Definition or_nullable (a b : option string) : option string :=
  match a with
  | Some s => if String.eqb s "" then b else Some s
  | None => b
  end.

(** What the home page shows: the welcome card with
    [session.user.name || session.user.email], or the card that invites to
    sign in. *)
Inductive HomeView :=
  | WelcomeBack (who : option string)
  | GetStarted.

(** The three fields of the dashboard card. *)
Record DashboardView := mkDashboardView {
  shown_name : string;
  shown_email : string;
  shown_id : string
}.

(** What the sign-in page shows. *)
Inductive SignInView := SignInFormView.

Section WithPlatform.
Context {W : Type} `{Platform W}.

(** app/page.tsx, the home page that is open to everyone. *)
Definition Home : M W (PageResult HomeView) :=
  session <- auth ;;
  match optional_user session with
  | Some user => ret (Rendered (WelcomeBack (or_nullable (su_name user) (su_email user))))
  | None => ret (Rendered GetStarted)
  end.

(** The later home page, behind [requireAuthWithRedirect()]. *)
Definition Home_protected : M W (PageResult HomeView) :=
  guarded <- requireAuthWithRedirect None ;;
  match guarded with
  | Redirect url => ret (Redirect url)
  | Rendered session =>
      ret (Rendered (WelcomeBack (or_nullable (su_name (authed_user session))
                                    (su_email (authed_user session)))))
  end.

Definition DashboardPage : M W (PageResult DashboardView) :=
  session <- auth ;;
  match optional_user session with
  | None => redirect "/auth/signin"
  | Some user =>
      ret (Rendered {| shown_name := UserActions.or_null (su_name user) "Not set";
                       shown_email := UserActions.or_null (su_email user) "Not set";
                       shown_id := su_id user |})
  end.

Definition SignInPage : M W (PageResult SignInView) :=
  session <- auth ;;
  match optional_user session with
  | Some _ => redirect "/dashboard"
  | None => ret (Rendered SignInFormView)
  end.

End WithPlatform.

(** What [errorMessages[error]] evaluates to on the object literal of the
    error page: one of its own four strings, a member inherited from
    [Object.prototype] (a function or an object, truthy and not a
    string), or undefined. *)
Inductive Member :=
  | OwnString (text : string)
  | Inherited
  | Undefined.

Definition Object_prototype_names : list string :=
  ["constructor"; "__defineGetter__"; "__defineSetter__"; "hasOwnProperty";
   "__lookupGetter__"; "__lookupSetter__"; "isPrototypeOf"; "propertyIsEnumerable";
   "toString"; "valueOf"; "__proto__"; "toLocaleString"].

Definition errorMessages_Default : string := "An error occurred during authentication.".

Definition errorMessages (key : string) : Member :=
  if String.eqb key "Configuration"
  then OwnString "There is a problem with the server configuration."
  else if String.eqb key "AccessDenied"
  then OwnString "You do not have permission to sign in."
  else if String.eqb key "Verification"
  then OwnString "The verification token has expired or has already been used."
  else if String.eqb key "Default" then OwnString errorMessages_Default
  else if existsb (String.eqb key) Object_prototype_names then Inherited
  else Undefined.

(** The value of [errorMessage] in [AuthErrorPage], for
    [searchParams.error] present or not: a text, or a value that is not
    a string. *)
Inductive Shown :=
  | Text (text : string)
  | NotAString.

Definition AuthErrorPage_errorMessage (error : option string) : Shown :=
  match error with
  | None => Text errorMessages_Default
  | Some key =>
      if String.eqb key "" then Text errorMessages_Default
      else match errorMessages key with
           | OwnString text =>
               if String.eqb text "" then Text errorMessages_Default else Text text
           | Inherited => NotAString
           | Undefined => Text errorMessages_Default
           end
  end.

End Pages.

(* ===================================================================== *)
(** ** middleware.ts: the matcher of the earlier revision *)
(* ===================================================================== *)

Module Middleware.
Import Proxy.

(** [s.endsWith(suffix)] *)
Fixpoint endsWith (s suffix : string) : bool :=
  String.eqb s suffix ||
  match s with
  | EmptyString => false
  | String _ rest => endsWith rest suffix
  end.

(** The negative lookahead of the earlier matcher: the prefixes api/auth,
    _next/static, _next/image, favicon.ico (its dot the wildcard) and auth,
    and a path that ends in .png. *)
Definition matcher_lookahead (rest : string) : bool :=
  startsWith rest "api/auth" || startsWith rest "_next/static" ||
  startsWith rest "_next/image" || favicon_ico rest ||
  endsWith rest ".png" || startsWith rest "auth".

Definition config_matcher (pathname : string) : bool :=
  match pathname with
  | String "/" rest => negb (matcher_lookahead rest)
  | _ => false
  end.

End Middleware.

(* ===================================================================== *)
(** ** components/auth/signin-form.tsx: the state of the sign-in form *)
(* ===================================================================== *)

Module SignInForm.

Inductive Mode := signin | register.

(** The four [useState] cells of the component. *)
Record FormState := mkFormState {
  email : string;
  isLoading : bool;
  error : option string;
  mode : Mode
}.

Definition setIsLoading (b : bool) (st : FormState) : FormState :=
  {| email := email st; isLoading := b; error := error st; mode := mode st |}.

Definition setError (e : option string) (st : FormState) : FormState :=
  {| email := email st; isLoading := isLoading st; error := e; mode := mode st |}.

Definition setMode (m : Mode) (st : FormState) : FormState :=
  {| email := email st; isLoading := isLoading st; error := error st; mode := m |}.

Definition setEmail (value : string) (st : FormState) : FormState :=
  {| email := value; isLoading := isLoading st; error := error st; mode := mode st |}.

(** The options of the two calls of [signIn("passkey", ...)]. *)
Inductive PasskeyOptions :=
  | RegisterAction (email : string)
  | AuthenticateAction.

(** [signIn] of next-auth/webauthn. *)
Class WebAuthn (W : Type) := {
  signIn : string -> PasskeyOptions -> M W unit
}.

Section WithWebAuthn.
Context {W : Type} `{WebAuthn W}.

(** [handlePasskeyAuth(action)]: the state once the handler has run, its
    [finally] block included. *)
Definition handlePasskeyAuth (action : Mode) (st : FormState) : M W FormState :=
  let st := setError None (setIsLoading true st) in
  st' <- try_catch
           (match action with
            | register =>
                if String.eqb (email st) ""
                then ret (setIsLoading false
                            (setError (Some "Email is required for registration") st))
                else (signIn "passkey" (RegisterAction (email st)) ;;; ret st)
            | signin => (signIn "passkey" AuthenticateAction ;;; ret st)
            end)
           (fun err =>
              ret (setError
                     (Some (if instanceofError err then error_message err
                            else "An error occurred. Please try again.")) st)) ;;
  ret (setIsLoading false st').

End WithWebAuthn.

(** The [onClick] of the second button. *)
Definition toggleMode (st : FormState) : FormState :=
  setError None (setMode (match mode st with signin => register | register => signin end) st).

(** The [disabled] attribute of the submit button. *)
Definition submitDisabled (st : FormState) : bool :=
  isLoading st ||
  ((match mode st with register => true | signin => false end)
   && String.eqb (email st) "").

End SignInForm.

(* ===================================================================== *)
(** ** The profile form *)
(* ===================================================================== *)

Module UpdateProfileForm.
Import UserActions.

Inductive MessageType := success | error.

Record FormState := mkFormState {
  name : string;
  message : option (MessageType * string)
}.

Section WithPlatform.
Context {W : Type} `{Platform W}.

(** [handleSubmit(formData)]: the state once the transition has run. *)
Definition handleSubmit (formData : FormData) (st : FormState) : M W FormState :=
  let st := {| name := name st; message := None |} in
  result <- updateProfile formData ;;
  match result with
  | Success data =>
      ret {| name := profile_name data;
             message := Some (success, "Profile updated successfully!") |}
  | Failure text => ret {| name := name st; message := Some (error, text) |}
  end.

End WithPlatform.

End UpdateProfileForm.

(* ===================================================================== *)
(** ** scripts/check-setup.js *)
(* ===================================================================== *)

Module CheckSetup.

Definition ESC : string := String (ascii_of_nat 27) "".
Definition newline : string := String (ascii_of_nat 10) "".

Definition reset : string := ESC ++ "[0m".
Definition bright : string := ESC ++ "[1m".
Definition green : string := ESC ++ "[32m".
Definition yellow : string := ESC ++ "[33m".
Definition blue : string := ESC ++ "[34m".
Definition cyan : string := ESC ++ "[36m".

(** The output is the list of the arguments of the [console.log] calls. *)
Definition printHeader : list string :=
  [newline ++ bright ++ cyan ++ "┌─────────────────────────────────────────┐";
   "│     Next.js Starter Setup Check         │";
   "└─────────────────────────────────────────┘" ++ reset ++ newline].

Definition stepHeading (number title status : string) : string :=
  let icon := if String.eqb status "done" then "✓"
              else if String.eqb status "warning" then "⚠" else "○" in
  let color := if String.eqb status "done" then green
               else if String.eqb status "warning" then yellow else blue in
  color ++ bright ++ icon ++ " Step " ++ number ++ ": " ++ title ++ reset.

Definition printStep (number title status message : string) : list string :=
  stepHeading number title status ::
  (if String.eqb message "" then [] else ["  " ++ message ++ newline]).

Definition readyLine : string :=
  green ++ bright ++ "✓ Your project is set up and ready to go!" ++ reset.

Section WithFiles.
(** [checkFileExists(filePath)] *)
Variable checkFileExists : string -> bool.

Definition main : list string :=
  let hasEnv := checkFileExists ".env" in
  let hasPrismaGenerated := checkFileExists "app/generated/prisma" in
  app printHeader
    (if hasEnv && hasPrismaGenerated then
       [readyLine;
        newline ++ "  Run " ++ cyan ++ "npm run dev" ++ reset ++ " to start developing"
        ++ newline]
     else
       app [yellow ++ "Setup required! Follow these steps to get started:" ++ newline
            ++ reset]
      (app
        (if negb hasEnv then
           printStep "1" "Create environment file" "warning"
             (yellow ++ "Copy .env.example to .env and configure your database:" ++ newline
              ++ reset ++ "  " ++ cyan ++ "cp .env.example .env" ++ reset)
         else
           printStep "1" "Environment file" "done" (green ++ ".env file exists" ++ reset))
      (app
        (if hasEnv && negb hasPrismaGenerated then
           printStep "2" "Generate Prisma Client" "warning"
             (yellow ++ "Generate the Prisma client:" ++ newline ++ reset ++
              "  " ++ cyan ++ "npm run db:generate" ++ reset)
         else if negb hasEnv then
           printStep "2" "Generate Prisma Client" "pending"
             (blue ++ "Complete Step 1 first" ++ reset)
         else
           printStep "2" "Prisma Client" "done"
             (green ++ "Prisma client generated" ++ reset))
      (app
        (if hasEnv && hasPrismaGenerated then
           printStep "3" "Setup Database" "warning"
             (yellow ++ "Run database migrations:" ++ newline ++ reset ++
              "  " ++ cyan ++ "npm run db:push" ++ reset ++ " (for development) or"
              ++ newline ++
              "  " ++ cyan ++ "npm run db:migrate" ++ reset
              ++ " (for production-like workflow)")
         else
           printStep "3" "Setup Database" "pending"
             (blue ++ "Complete previous steps first" ++ reset))
      (app
        (printStep "4" "Start Development" "pending"
           (blue ++ "After setup is complete:" ++ newline ++ reset ++
            "  " ++ cyan ++ "npm run dev" ++ reset))
        [bright ++ newline ++ "📚 Documentation:" ++ reset;
         "   README: " ++ cyan
         ++ "https://github.com/squirrelsoft-dev/next-starter#readme" ++ reset;
         "   Database scripts: " ++ cyan ++ "npm run db:--help" ++ reset ++ newline]))))).

(** The script: [main()] runs only when a file is missing. *)
Definition script : list string :=
  if negb (checkFileExists "app/generated/prisma") || negb (checkFileExists ".env")
  then main else [].

End WithFiles.

End CheckSetup.

(* ===================================================================== *)
(** ** Concrete scenarios *)
(* ===================================================================== *)

(** The worlds the concrete runs below start from. *)
Module Scenario.
Import Store.

Definition alice : UserRow :=
  mkUserRow "alice" (Some "Alice") (Some "alice@example.com") 0.

Definition bob : UserRow :=
  mkUserRow "bob" (Some "Bob") (Some "bob@example.com") 1000.

Definition table : gmap string UserRow := <["alice" := alice]> (<["bob" := bob]> ∅).

Definition alice_session : Session :=
  mkSession (Some (mkSessionUser "alice" (Some "Alice") (Some "alice@example.com")))
    "2030-01-01T00:00:00.000Z".

(** A request without a session cookie, and one signed in as alice, two
    and a half days after her account was created. *)
Definition signed_out : World := mkWorld table None 216000000.
Definition signed_in : World := mkWorld table (Some alice_session) 216000000.

Definition P : Platform World := platform has_at.

Definition localhost : string := "http://localhost:3000".

(** A profile form and a settings body that carry the identifier of
    another account next to the new name. *)
Definition form_naming_bob : UserActions.FormData :=
  [("userId", UserActions.FormString "bob"); ("name", UserActions.FormString "Mallory")].

Definition body_naming_bob : json :=
  JObj [("id", JStr "bob"); ("name", JStr "Mallory")].

(** A settings body that asks for the email of bob. *)
Definition body_taking_email : json := JObj [("email", JStr "bob@example.com")].

(** A ceremony in flight: one credential whose stored counter is 5, one
    live challenge, and a verifier that accepts every signature. *)
Definition config : Ceremony.Config := Ceremony.mkConfig "localhost" localhost.

Definition credential : Ceremony.Credential := Ceremony.mkCredential "alice" "pk" 5.

Definition ceremony : Ceremony.State :=
  Ceremony.mkState {["cred-1" := credential]}
    {["nonce-1" := Ceremony.mkChallenge "localhost" localhost Ceremony.Authenticate 300000]}.

Definition assertion (counter : N) : Ceremony.Assertion :=
  Ceremony.mkAssertion "cred-1" localhost "localhost" "nonce-1" counter "sig".

Definition accept_all (publicKey : string) (a : Ceremony.Assertion) : bool := true.

End Scenario.

(** More worlds for concrete runs. *)
Module Cases.
Import Store Scenario.

(** A request whose session still resolves to alice although her record
    is gone from the table. *)
Definition stale : World := mkWorld (delete "alice" table) (Some alice_session) 216000000.

Definition dashboard_request : Proxy.NextRequest :=
  Proxy.mkNextRequest localhost "/dashboard".

Definition rename_request : SettingsRoute.Request :=
  SettingsRoute.mkRequest (SettingsRoute.ValidJson (JObj [("name", JStr "Alice B")])).

Definition alice_user : SessionUser :=
  mkSessionUser "alice" (Some "Alice") (Some "alice@example.com").

(** A browser in which [signIn] returns and the calls are logged. *)
Definition logging : SignInForm.WebAuthn (list SignInForm.PasskeyOptions) :=
  {| SignInForm.signIn := fun provider options log =>
       (Returned tt, (log ++ [options])%list) |}.

Definition register_form : SignInForm.FormState :=
  SignInForm.mkFormState "carol@example.com" false None SignInForm.register.

End Cases.

(* ===================================================================== *)
(** ** The deny responses *)
(* ===================================================================== *)

(** The redirect the proxy builds: /auth/signin on the origin of the
    request, with the path of the request as callbackUrl. *)
Definition signInRedirect (request : Proxy.NextRequest) : Proxy.NextResponse :=
  Proxy.NextResponse_redirect
    {| Proxy.url_origin := Proxy.request_origin request;
       Proxy.url_pathname := "/auth/signin";
       Proxy.url_searchParams := [("callbackUrl", Proxy.nextUrl_pathname request)] |}.

(** The response inside the error result of [requireApiAuth]. *)
Definition unauthorized401 : AuthUtils.Response :=
  AuthUtils.Response_json (JObj [("error", JStr "Authentication required")]) 401.

(* ===================================================================== *)
(** ** Session guards *)
(* ===================================================================== *)

Ltac run := unfold bind, try_catch, ret, throw in *; simpl in *.

Section Guards.
Context {W : Type} `{Platform W}.
Import AuthUtils.

Lemma requireAuth_denies (w w' : W) (session : option Session) :
  auth w = (Returned session, w') ->
  optional_user session = None ->
  requireAuth w =
    (Threw (AuthenticationError "You must be signed in to access this resource"), w').
Proof.
  intros Hauth Hnone. unfold requireAuth. run. rewrite Hauth.
  destruct session as [s|]; [|reflexivity].
  simpl in Hnone. rewrite Hnone. reflexivity.
Qed.

Lemma requireAuth_grants (w w' : W) (session : option Session) (u : SessionUser) :
  auth w = (Returned session, w') ->
  optional_user session = Some u ->
  exists e, requireAuth w = (Returned {| authed_user := u; authed_expires := e |}, w').
Proof.
  intros Hauth Hsome. unfold requireAuth. run. rewrite Hauth.
  destruct session as [s|]; [|discriminate].
  simpl in Hsome. rewrite Hsome. eexists. reflexivity.
Qed.

Lemma requireUser_denies (w w' : W) (session : option Session) :
  auth w = (Returned session, w') ->
  optional_user session = None ->
  requireUser w =
    (Threw (AuthenticationError "You must be signed in to access this resource"), w').
Proof.
  intros Hauth Hnone. unfold requireUser. run.
  rewrite (requireAuth_denies _ _ _ Hauth Hnone). reflexivity.
Qed.

Lemma requireUser_grants (w w' : W) (session : option Session) (u : SessionUser) :
  auth w = (Returned session, w') ->
  optional_user session = Some u ->
  requireUser w = (Returned u, w').
Proof.
  intros Hauth Hsome. unfold requireUser. run.
  destruct (requireAuth_grants _ _ _ _ Hauth Hsome) as [e He].
  rewrite He. reflexivity.
Qed.

Lemma requireApiAuth_denies (w w' : W) (session : option Session) :
  auth w = (Returned session, w') ->
  optional_user session = None ->
  requireApiAuth w =
    (Returned (ApiAuth_error "Unauthorized"
                 (Response_json (JObj [("error", JStr "Authentication required")]) 401)),
     w').
Proof.
  intros Hauth Hnone. unfold requireApiAuth. run. rewrite Hauth, Hnone. reflexivity.
Qed.

Lemma requireApiAuth_grants (w w' : W) (session : option Session) (u : SessionUser) :
  auth w = (Returned session, w') ->
  optional_user session = Some u ->
  requireApiAuth w = (Returned (ApiAuth_user u), w').
Proof.
  intros Hauth Hsome. unfold requireApiAuth. run. rewrite Hauth, Hsome. reflexivity.
Qed.

End Guards.

(* ===================================================================== *)
(** ** The three checkpoints without a session *)
(* ===================================================================== *)

Section Checkpoints.
Context {W : Type} `{Platform W}.
Import Proxy AuthUtils UserActions SettingsRoute.

Lemma proxy_allow_listed (request : NextRequest) (w : W) :
  isRouteMatch (nextUrl_pathname request) authRoutes = true ->
  proxy request w = (Returned NextResponse_next, w).
Proof. intros Hm. unfold proxy. rewrite Hm. reflexivity. Qed.

Lemma proxy_denies (request : NextRequest) (w w' : W) (session : option Session) :
  isRouteMatch (nextUrl_pathname request) authRoutes = false ->
  auth w = (Returned session, w') ->
  optional_user session = None ->
  proxy request w = (Returned (signInRedirect request), w').
Proof.
  intros Hm Hauth Hnone. unfold proxy. rewrite Hm. run.
  rewrite Hauth, Hnone. reflexivity.
Qed.

Lemma proxy_forwards (request : NextRequest) (w w' : W) (session : option Session)
    (u : SessionUser) :
  isRouteMatch (nextUrl_pathname request) authRoutes = false ->
  auth w = (Returned session, w') ->
  optional_user session = Some u ->
  proxy request w = (Returned NextResponse_next, w').
Proof.
  intros Hm Hauth Hsome. unfold proxy. rewrite Hm. run.
  rewrite Hauth, Hsome. reflexivity.
Qed.

Lemma GET_denies (w w' : W) (session : option Session) :
  auth w = (Returned session, w') ->
  optional_user session = None ->
  GET w = (Returned unauthorized401, w').
Proof.
  intros Hauth Hnone. unfold GET. run.
  rewrite (requireApiAuth_denies _ _ _ Hauth Hnone). reflexivity.
Qed.

Lemma PUT_denies (request : Request) (w w' : W) (session : option Session) :
  auth w = (Returned session, w') ->
  optional_user session = None ->
  PUT request w = (Returned unauthorized401, w').
Proof.
  intros Hauth Hnone. unfold PUT. run.
  rewrite (requireApiAuth_denies _ _ _ Hauth Hnone). reflexivity.
Qed.

Lemma updateProfile_denies (formData : FormData) (w w' : W) (session : option Session) :
  auth w = (Returned session, w') ->
  optional_user session = None ->
  updateProfile formData w =
    (Returned (Failure "You must be signed in to update your profile"), w').
Proof.
  intros Hauth Hnone. unfold updateProfile. run.
  rewrite (requireUser_denies _ _ _ Hauth Hnone). reflexivity.
Qed.

Lemma deleteAccount_denies (w w' : W) (session : option Session) :
  auth w = (Returned session, w') ->
  optional_user session = None ->
  deleteAccount w =
    (Returned (Failure "You must be signed in to delete your account"), w').
Proof.
  intros Hauth Hnone. unfold deleteAccount. run.
  rewrite (requireUser_denies _ _ _ Hauth Hnone). reflexivity.
Qed.

Lemma getUserStats_denies (w w' : W) (session : option Session) :
  auth w = (Returned session, w') ->
  optional_user session = None ->
  getUserStats w = (Returned (Failure "You must be signed in to view stats"), w').
Proof.
  intros Hauth Hnone. unfold getUserStats. run.
  rewrite (requireAuth_denies _ _ _ Hauth Hnone). reflexivity.
Qed.

(** C4. On a path that is not on the allow-list, the proxy resolves the
    session; without a user it redirects to /auth/signin on the origin of
    the request with the query parameter callbackUrl set to the path of the
    request, and with a user it lets the request through. *)
Theorem C4_proxy_decision
    (request : NextRequest) (w w' : W) (session : option Session)
    (Hprotected : isRouteMatch (nextUrl_pathname request) authRoutes = false)
    (Hauth : auth w = (Returned session, w')) :
  (optional_user session = None ->
   exists target,
     proxy request w = (Returned (NextResponse_redirect target), w') /\
     url_origin target = request_origin request /\
     url_pathname target = "/auth/signin" /\
     searchParams_get "callbackUrl" (url_searchParams target)
       = Some (nextUrl_pathname request)) /\
  (forall u, optional_user session = Some u ->
   proxy request w = (Returned NextResponse_next, w')).
Proof.
  split.
  - intros Hnone. exists
      {| url_origin := request_origin request;
         url_pathname := "/auth/signin";
         url_searchParams := [("callbackUrl", nextUrl_pathname request)] |}.
    split; [exact (proxy_denies _ _ _ _ Hprotected Hauth Hnone)|].
    repeat split.
  - intros u Hsome. exact (proxy_forwards _ _ _ _ _ Hprotected Hauth Hsome).
Qed.

(** C5. A profile update without a session returns the sign-in failure of
    the action, and whatever part of the world session resolution does not
    write, the account records among it, is as it was: the update of the
    user table is not reached. *)
Theorem C5_updateProfile_without_session
    {T : Type} (accounts : W -> T)
    (Hframe : forall w0, accounts (snd (auth w0)) = accounts w0)
    (formData : FormData) (w : W) (session : option Session)
    (Hauth : fst (auth w) = Returned session)
    (Hnone : optional_user session = None) :
  fst (updateProfile formData w) =
    Returned (Failure "You must be signed in to update your profile") /\
  snd (updateProfile formData w) = snd (auth w) /\
  accounts (snd (updateProfile formData w)) = accounts w.
Proof.
  assert (Ha : auth w = (Returned session, snd (auth w))).
  { destruct (auth w) as [r w1]. simpl in *. congruence. }
  rewrite (updateProfile_denies formData _ _ _ Ha Hnone). simpl.
  repeat split. apply Hframe.
Qed.

Import Zod.

Lemma requireAuth_rethrows (w : W) (e : Thrown) :
  fst (auth w) = Threw e -> requireAuth w = (Threw e, snd (auth w)).
Proof.
  intros Hauth. unfold requireAuth, bind.
  destruct (auth w) as [[session|e'] w1]; simpl in *; congruence.
Qed.

Lemma requireUser_rethrows (w : W) (e : Thrown) :
  fst (auth w) = Threw e -> requireUser w = (Threw e, snd (auth w)).
Proof.
  intros Hauth. unfold requireUser, bind.
  rewrite (requireAuth_rethrows w e Hauth). reflexivity.
Qed.

Lemma auth_returned (w : W) (session : option Session) :
  fst (auth w) = Returned session -> auth w = (Returned session, snd (auth w)).
Proof. destruct (auth w) as [r w1]. simpl. congruence. Qed.

(** What the [catch] clause of an action answers for a thrown value: the
    sign-in text for an [Error] named AuthenticationError, the generic
    text for anything else. *)
Lemma updateProfile_outcomes (formData : FormData) (w : W) :
  (forall e, fst (auth w) = Threw e ->
     fst (updateProfile formData w) =
       Returned (Failure
         (if instanceofError e && String.eqb (error_name e) "AuthenticationError"
          then "You must be signed in to update your profile"
          else "Failed to update profile. Please try again."))) /\
  (forall session u name e,
     fst (auth w) = Returned session -> optional_user session = Some u ->
     updateProfileSchema_safeParse (FormData_get "name" formData) = ParseSuccess name ->
     fst (prisma_user_update (su_id u) {| set_name := Some name; set_email := None |}
            (snd (auth w))) = Threw e ->
     fst (updateProfile formData w) =
       Returned (Failure
         (if instanceofError e && String.eqb (error_name e) "AuthenticationError"
          then "You must be signed in to update your profile"
          else "Failed to update profile. Please try again."))) /\
  (forall data,
     fst (updateProfile formData w) = Returned (Success data) ->
     exists session u name row w2 w3 w4,
       fst (auth w) = Returned session /\ optional_user session = Some u /\
       updateProfileSchema_safeParse (FormData_get "name" formData) = ParseSuccess name /\
       prisma_user_update (su_id u) {| set_name := Some name; set_email := None |}
         (snd (auth w)) = (Returned row, w2) /\
       revalidatePath "/dashboard" w2 = (Returned tt, w3) /\
       revalidatePath "/" w3 = (Returned tt, w4) /\
       data = {| profile_name := or_null (user_name row) "";
                 profile_email := or_null (user_email row) "" |}).
Proof.
  split; [|split].
  - intros e Hauth. unfold updateProfile, try_catch, bind.
    rewrite (requireUser_rethrows w e Hauth).
    destruct (instanceofError e && String.eqb (error_name e) "AuthenticationError");
      reflexivity.
  - intros session u name e Hauth Hu Hparse Hthrow.
    unfold updateProfile, try_catch, bind.
    rewrite (requireUser_grants w _ session u (auth_returned w session Hauth) Hu), Hparse.
    destruct (prisma_user_update (su_id u) _ (snd (auth w))) as [[row|e'] w2];
      simpl in Hthrow; [discriminate|].
    injection Hthrow as ->.
    destruct (instanceofError e && String.eqb (error_name e) "AuthenticationError");
      reflexivity.
  - intros data. unfold updateProfile, try_catch, bind.
    destruct (auth w) as [[session|e] w1] eqn:Hauth.
    2:{ rewrite (requireUser_rethrows w e ltac:(rewrite Hauth; reflexivity)).
        destruct (instanceofError e && String.eqb (error_name e) "AuthenticationError");
          discriminate. }
    destruct (optional_user session) as [u|] eqn:Hu.
    2:{ rewrite (requireUser_denies w w1 session Hauth Hu). discriminate. }
    rewrite (requireUser_grants w w1 session u Hauth Hu).
    destruct (updateProfileSchema_safeParse (FormData_get "name" formData))
      as [name|errors] eqn:Hparse; [|discriminate].
    destruct (prisma_user_update (su_id u) _ w1) as [[row|e] w2] eqn:Hupd.
    2:{ destruct (instanceofError e && String.eqb (error_name e) "AuthenticationError");
          discriminate. }
    destruct (revalidatePath "/dashboard" w2) as [[[]|e] w3] eqn:Hr1.
    2:{ destruct (instanceofError e && String.eqb (error_name e) "AuthenticationError");
          discriminate. }
    destruct (revalidatePath "/" w3) as [[[]|e] w4] eqn:Hr2.
    2:{ destruct (instanceofError e && String.eqb (error_name e) "AuthenticationError");
          discriminate. }
    simpl. intros Hres. injection Hres as <-.
    exists session, u, name, row, w2, w3, w4. simpl. auto 10.
Qed.

Lemma deleteAccount_outcomes (w : W) :
  (forall e, fst (auth w) = Threw e ->
     fst (deleteAccount w) =
       Returned (Failure
         (if instanceofError e && String.eqb (error_name e) "AuthenticationError"
          then "You must be signed in to delete your account"
          else "Failed to delete account. Please try again."))) /\
  (forall session u e,
     fst (auth w) = Returned session -> optional_user session = Some u ->
     fst (prisma_transaction unit (prisma_user_delete (su_id u) ;;; ret tt)
            (snd (auth w))) = Threw e ->
     fst (deleteAccount w) =
       Returned (Failure
         (if instanceofError e && String.eqb (error_name e) "AuthenticationError"
          then "You must be signed in to delete your account"
          else "Failed to delete account. Please try again."))) /\
  (forall data,
     fst (deleteAccount w) = Returned (Success data) ->
     data = {| deleted := true |} /\
     exists session u w2,
       fst (auth w) = Returned session /\ optional_user session = Some u /\
       prisma_transaction unit (prisma_user_delete (su_id u) ;;; ret tt) (snd (auth w))
         = (Returned tt, w2)).
Proof.
  split; [|split].
  - intros e Hauth. unfold deleteAccount, try_catch, bind at 1.
    rewrite (requireUser_rethrows w e Hauth).
    destruct (instanceofError e && String.eqb (error_name e) "AuthenticationError");
      reflexivity.
  - intros session u e Hauth Hu Hthrow.
    unfold deleteAccount, try_catch, bind at 1.
    rewrite (requireUser_grants w _ session u (auth_returned w session Hauth) Hu).
    unfold bind at 1.
    destruct (prisma_transaction unit _ (snd (auth w))) as [[[]|e'] w2];
      simpl in Hthrow; [discriminate|].
    injection Hthrow as ->.
    destruct (instanceofError e && String.eqb (error_name e) "AuthenticationError");
      reflexivity.
  - intros data. unfold deleteAccount, try_catch, bind at 1.
    destruct (auth w) as [[session|e] w1] eqn:Hauth.
    2:{ rewrite (requireUser_rethrows w e ltac:(rewrite Hauth; reflexivity)).
        destruct (instanceofError e && String.eqb (error_name e) "AuthenticationError");
          discriminate. }
    destruct (optional_user session) as [u|] eqn:Hu.
    2:{ rewrite (requireUser_denies w w1 session Hauth Hu). discriminate. }
    rewrite (requireUser_grants w w1 session u Hauth Hu).
    unfold bind at 1.
    destruct (prisma_transaction unit _ w1) as [[[]|e] w2] eqn:Htx.
    2:{ destruct (instanceofError e && String.eqb (error_name e) "AuthenticationError");
          discriminate. }
    simpl. intros Hres. injection Hres as <-. split; [reflexivity|].
    exists session, u, w2. auto.
Qed.

Lemma getUserStats_outcomes (w : W) :
  (forall e, fst (auth w) = Threw e ->
     fst (getUserStats w) =
       Returned (Failure
         (if instanceofError e && String.eqb (error_name e) "AuthenticationError"
          then "You must be signed in to view stats"
          else "Failed to fetch stats"))) /\
  (forall session u e,
     fst (auth w) = Returned session -> optional_user session = Some u ->
     fst (prisma_user_findUnique (su_id u) (snd (auth w))) = Threw e ->
     fst (getUserStats w) =
       Returned (Failure
         (if instanceofError e && String.eqb (error_name e) "AuthenticationError"
          then "You must be signed in to view stats"
          else "Failed to fetch stats"))) /\
  (forall session u,
     fst (auth w) = Returned session -> optional_user session = Some u ->
     fst (prisma_user_findUnique (su_id u) (snd (auth w))) = Returned None ->
     fst (getUserStats w) = Returned (Failure "User not found")) /\
  (forall data,
     fst (getUserStats w) = Returned (Success data) ->
     exists session u row,
       fst (auth w) = Returned session /\ optional_user session = Some u /\
       fst (prisma_user_findUnique (su_id u) (snd (auth w))) = Returned (Some row)).
Proof.
  split; [|split; [|split]].
  - intros e Hauth. unfold getUserStats, try_catch, bind at 1.
    rewrite (requireAuth_rethrows w e Hauth).
    destruct (instanceofError e && String.eqb (error_name e) "AuthenticationError");
      reflexivity.
  - intros session u e Hauth Hu Hthrow.
    destruct (requireAuth_grants w _ session u (auth_returned w session Hauth) Hu)
      as [x Hx].
    unfold getUserStats, try_catch, bind at 1. rewrite Hx. unfold bind at 1. simpl.
    destruct (prisma_user_findUnique (su_id u) (snd (auth w))) as [[row|e'] w2];
      simpl in Hthrow; [discriminate|].
    injection Hthrow as ->.
    destruct (instanceofError e && String.eqb (error_name e) "AuthenticationError");
      reflexivity.
  - intros session u Hauth Hu Hnone.
    destruct (requireAuth_grants w _ session u (auth_returned w session Hauth) Hu)
      as [x Hx].
    unfold getUserStats, try_catch, bind at 1. rewrite Hx. unfold bind at 1. simpl.
    destruct (prisma_user_findUnique (su_id u) (snd (auth w))) as [[row|e'] w2];
      simpl in Hnone; [|discriminate].
    injection Hnone as ->. reflexivity.
  - intros data. unfold getUserStats, try_catch, bind at 1.
    destruct (auth w) as [[session|e] w1] eqn:Hauth.
    2:{ rewrite (requireAuth_rethrows w e ltac:(rewrite Hauth; reflexivity)).
        destruct (instanceofError e && String.eqb (error_name e) "AuthenticationError");
          discriminate. }
    destruct (optional_user session) as [u|] eqn:Hu.
    2:{ rewrite (requireAuth_denies w w1 session Hauth Hu). discriminate. }
    destruct (requireAuth_grants w w1 session u Hauth Hu) as [x Hx].
    rewrite Hx. unfold bind at 1. simpl.
    destruct (prisma_user_findUnique (su_id u) w1) as [[[row|]|e] w2] eqn:Hfind.
    + intros _. exists session, u, row. simpl. rewrite Hfind. auto.
    + discriminate.
    + destruct (instanceofError e && String.eqb (error_name e) "AuthenticationError");
        discriminate.
Qed.

(** C9. Every server action returns an [ActionResult], whatever the form
    data, the session and the behaviour of Auth.js, Prisma and the cache,
    and a value thrown inside the action is caught and mapped to a failure:
    when [auth()] throws, when there is no session, and when the Prisma
    call throws, the action answers a failure, with the sign-in text of
    the action for an authentication error and its generic text for
    anything else. A success is answered only when session resolution
    returned a user and every call inside the action returned. *)
Theorem C9_actions_never_throw (formData : FormData) (w : W) :
  ((exists r, fst (updateProfile formData w) = Returned r) /\
   (exists r, fst (deleteAccount w) = Returned r) /\
   (exists r, fst (getUserStats w) = Returned r)) /\
  (forall session,
     fst (auth w) = Returned session -> optional_user session = None ->
     fst (updateProfile formData w) =
       Returned (Failure "You must be signed in to update your profile") /\
     fst (deleteAccount w) =
       Returned (Failure "You must be signed in to delete your account") /\
     fst (getUserStats w) = Returned (Failure "You must be signed in to view stats")) /\
  ((forall e, fst (auth w) = Threw e ->
      fst (updateProfile formData w) =
        Returned (Failure
          (if instanceofError e && String.eqb (error_name e) "AuthenticationError"
           then "You must be signed in to update your profile"
           else "Failed to update profile. Please try again."))) /\
   (forall session u name e,
      fst (auth w) = Returned session -> optional_user session = Some u ->
      updateProfileSchema_safeParse (FormData_get "name" formData) = ParseSuccess name ->
      fst (prisma_user_update (su_id u) {| set_name := Some name; set_email := None |}
             (snd (auth w))) = Threw e ->
      fst (updateProfile formData w) =
        Returned (Failure
          (if instanceofError e && String.eqb (error_name e) "AuthenticationError"
           then "You must be signed in to update your profile"
           else "Failed to update profile. Please try again."))) /\
   (forall data,
      fst (updateProfile formData w) = Returned (Success data) ->
      exists session u name row w2 w3 w4,
        fst (auth w) = Returned session /\ optional_user session = Some u /\
        updateProfileSchema_safeParse (FormData_get "name" formData) = ParseSuccess name /\
        prisma_user_update (su_id u) {| set_name := Some name; set_email := None |}
          (snd (auth w)) = (Returned row, w2) /\
        revalidatePath "/dashboard" w2 = (Returned tt, w3) /\
        revalidatePath "/" w3 = (Returned tt, w4) /\
        data = {| profile_name := or_null (user_name row) "";
                  profile_email := or_null (user_email row) "" |})) /\
  ((forall e, fst (auth w) = Threw e ->
      fst (deleteAccount w) =
        Returned (Failure
          (if instanceofError e && String.eqb (error_name e) "AuthenticationError"
           then "You must be signed in to delete your account"
           else "Failed to delete account. Please try again."))) /\
   (forall session u e,
      fst (auth w) = Returned session -> optional_user session = Some u ->
      fst (prisma_transaction unit (prisma_user_delete (su_id u) ;;; ret tt)
             (snd (auth w))) = Threw e ->
      fst (deleteAccount w) =
        Returned (Failure
          (if instanceofError e && String.eqb (error_name e) "AuthenticationError"
           then "You must be signed in to delete your account"
           else "Failed to delete account. Please try again."))) /\
   (forall data,
      fst (deleteAccount w) = Returned (Success data) ->
      data = {| deleted := true |} /\
      exists session u w2,
        fst (auth w) = Returned session /\ optional_user session = Some u /\
        prisma_transaction unit (prisma_user_delete (su_id u) ;;; ret tt) (snd (auth w))
          = (Returned tt, w2))) /\
  ((forall e, fst (auth w) = Threw e ->
      fst (getUserStats w) =
        Returned (Failure
          (if instanceofError e && String.eqb (error_name e) "AuthenticationError"
           then "You must be signed in to view stats"
           else "Failed to fetch stats"))) /\
   (forall session u e,
      fst (auth w) = Returned session -> optional_user session = Some u ->
      fst (prisma_user_findUnique (su_id u) (snd (auth w))) = Threw e ->
      fst (getUserStats w) =
        Returned (Failure
          (if instanceofError e && String.eqb (error_name e) "AuthenticationError"
           then "You must be signed in to view stats"
           else "Failed to fetch stats"))) /\
   (forall session u,
      fst (auth w) = Returned session -> optional_user session = Some u ->
      fst (prisma_user_findUnique (su_id u) (snd (auth w))) = Returned None ->
      fst (getUserStats w) = Returned (Failure "User not found")) /\
   (forall data,
      fst (getUserStats w) = Returned (Success data) ->
      exists session u row,
        fst (auth w) = Returned session /\ optional_user session = Some u /\
        fst (prisma_user_findUnique (su_id u) (snd (auth w))) = Returned (Some row))).
Proof.
  split; [|split; [|split; [|split]]].
  - repeat split.
    + unfold updateProfile, try_catch.
      match goal with
      | |- context [match ?b w with _ => _ end] => destruct (b w) as [[r|e] w1]
      end.
      * eexists; reflexivity.
      * destruct (instanceofError e && String.eqb (error_name e) "AuthenticationError");
          eexists; reflexivity.
    + unfold deleteAccount, try_catch.
      match goal with
      | |- context [match ?b w with _ => _ end] => destruct (b w) as [[r|e] w1]
      end.
      * eexists; reflexivity.
      * destruct (instanceofError e && String.eqb (error_name e) "AuthenticationError");
          eexists; reflexivity.
    + unfold getUserStats, try_catch.
      match goal with
      | |- context [match ?b w with _ => _ end] => destruct (b w) as [[r|e] w1]
      end.
      * eexists; reflexivity.
      * destruct (instanceofError e && String.eqb (error_name e) "AuthenticationError");
          eexists; reflexivity.
  - intros session Hauth Hnone. apply auth_returned in Hauth.
    rewrite (updateProfile_denies formData _ _ _ Hauth Hnone),
      (deleteAccount_denies _ _ _ Hauth Hnone), (getUserStats_denies _ _ _ Hauth Hnone).
    repeat split.
  - exact (updateProfile_outcomes formData w).
  - exact (deleteAccount_outcomes w).
  - exact (getUserStats_outcomes w).
Qed.

End Checkpoints.

(* ===================================================================== *)
(** ** Route classification *)
(* ===================================================================== *)

Section Routes.
Import Proxy.

Lemma prefix_refl (s : string) : String.prefix s s = true.
Proof.
  induction s as [|c s IH]; simpl; [reflexivity|].
  destruct (ascii_dec c c); [exact IH | contradiction].
Qed.

(** A route under /api/ or /auth is matched as a prefix. *)
Lemma isRouteMatch_grouped (pathname route : string) :
  startsWith route "/api/" = true \/ startsWith route "/auth" = true ->
  isRouteMatch pathname [route] = startsWith pathname route.
Proof.
  intros Hgroup. unfold isRouteMatch. simpl existsb. rewrite orb_false_r.
  destruct (String.eqb_spec pathname route) as [->|Hne].
  - unfold startsWith. rewrite prefix_refl. reflexivity.
  - unfold startsWith in *.
    destruct (String.prefix route pathname), (String.prefix "/api/" route),
      (String.prefix "/auth" route); simpl; try reflexivity;
      destruct Hgroup; discriminate.
Qed.

(** Any other route is matched exactly. *)
Lemma isRouteMatch_individual (pathname route : string) :
  startsWith route "/api/" = false ->
  startsWith route "/auth" = false ->
  isRouteMatch pathname [route] = String.eqb pathname route.
Proof.
  intros Hapi Hauth. unfold isRouteMatch. simpl existsb. rewrite orb_false_r.
  rewrite Hapi, Hauth. simpl. destruct (String.eqb pathname route); reflexivity.
Qed.

Lemma isRouteMatch_existsb (pathname : string) (routes : list string) :
  isRouteMatch pathname routes = existsb (fun route => isRouteMatch pathname [route]) routes.
Proof.
  unfold isRouteMatch. induction routes as [|r rs IH]; simpl; [reflexivity|].
  rewrite orb_false_r. f_equal. exact IH.
Qed.

Lemma authRoutes_by_prefix (pathname : string) :
  isRouteMatch pathname authRoutes = true <->
  exists route, In route authRoutes /\ startsWith pathname route = true.
Proof.
  rewrite isRouteMatch_existsb, existsb_exists.
  split; intros (route & Hin & Hm); exists route; split; try exact Hin.
  - rewrite isRouteMatch_grouped in Hm; [exact Hm|].
    simpl in Hin. destruct Hin as [<-|[<-|[<-|[<-|[]]]]]; auto.
  - rewrite isRouteMatch_grouped; [exact Hm|].
    simpl in Hin. destruct Hin as [<-|[<-|[<-|[<-|[]]]]]; auto.
Qed.

Lemma matcher_skips (rest : string) :
  startsWith rest "api/auth" = true \/ startsWith rest "auth" = true \/
  startsWith rest "_next/static" = true \/ startsWith rest "_next/image" = true \/
  includes rest "." = true ->
  config_matcher (String "/" rest) = false.
Proof.
  intros Hcase. unfold config_matcher, matcher_lookahead.
  destruct Hcase as [Hc|[Hc|[Hc|[Hc|Hc]]]]; rewrite Hc;
    rewrite ?orb_true_r; reflexivity.
Qed.

(** C2, as amended. The allow-list is fixed: the proxy lets a path through
    without a session exactly when one of the four auth routes is a prefix
    of it, routes under /api/ or /auth being matched as prefixes and any
    other route exactly, and the matcher keeps the proxy from running on
    the auth endpoints and pages and on static assets. On every other path,
    the home page among them, the proxy answers a request without a session
    with the redirect to sign-in. The [authorized] callback of the Auth.js
    configuration lets the home page through without a session and requires
    a session on every other path; its later revision requires one on every
    path. *)
Theorem C2_route_classification :
  (forall pathname,
      isRouteMatch pathname authRoutes = true <->
      exists route, In route authRoutes /\ startsWith pathname route = true) /\
  (forall pathname route,
      startsWith route "/api/" = true \/ startsWith route "/auth" = true ->
      isRouteMatch pathname [route] = startsWith pathname route) /\
  (forall pathname route,
      startsWith route "/api/" = false -> startsWith route "/auth" = false ->
      isRouteMatch pathname [route] = String.eqb pathname route) /\
  (forall pathname, isRouteMatch pathname publicRoutes = false) /\
  (forall rest,
      startsWith rest "api/auth" = true \/ startsWith rest "auth" = true \/
      startsWith rest "_next/static" = true \/ startsWith rest "_next/image" = true \/
      includes rest "." = true ->
      config_matcher (String "/" rest) = false) /\
  config_matcher "/favicon.ico" = false /\
  (forall (W : Type) (PF : Platform W) request (w w' : W) session,
      isRouteMatch (nextUrl_pathname request) authRoutes = false ->
      auth w = (Returned session, w') ->
      optional_user session = None ->
      proxy request w = (Returned (signInRedirect request), w')) /\
  (config_matcher "/" = true /\ isRouteMatch "/" authRoutes = false) /\
  (forall session, AuthConfig.authorized session "/" = true) /\
  (forall session pathname,
      pathname <> "/" ->
      AuthConfig.authorized session pathname = true <-> session <> None) /\
  (forall session pathname,
      AuthConfig.authorized_protected_home session pathname = true <-> session <> None).
Proof.
  split; [exact authRoutes_by_prefix|].
  split; [exact isRouteMatch_grouped|].
  split; [exact isRouteMatch_individual|].
  split; [reflexivity|].
  split; [exact matcher_skips|].
  split; [reflexivity|].
  split; [intros W PF request w w' session; apply proxy_denies|].
  split; [split; reflexivity|].
  split; [reflexivity|].
  split.
  - intros session pathname Hne. unfold AuthConfig.authorized.
    destruct (String.eqb_spec pathname "/") as [->|_]; [contradiction|].
    destruct session; split; congruence.
  - intros session pathname. unfold AuthConfig.authorized_protected_home.
    destruct session; split; congruence.
Qed.

(** C2 fails as stated: the [authorized] callback lets a request for the
    home page through when there is no session. *)
Lemma C2_home_page_public_in_callback :
  AuthConfig.authorized None "/" = true /\
  ~ (forall session pathname,
        session = None -> AuthConfig.authorized session pathname = false).
Proof.
  split; [reflexivity|].
  intros Hall. specialize (Hall None "/" eq_refl). discriminate Hall.
Qed.

(** C2 at concrete paths. *)
Lemma C2_route_classification_witness :
  isRouteMatch "/api/auth/callback/passkey" authRoutes = true /\
  isRouteMatch "/about" ["/about"] = true /\
  isRouteMatch "/about/team" ["/about"] = false /\
  config_matcher "/_next/static/chunks/main.js" = false /\
  AuthConfig.authorized None "/dashboard" = false.
Proof.
  destruct C2_route_classification
    as (Hallow & Hgroup & Hexact & _ & Hskip & _ & _ & _ & _ & Hcb & _).
  split; [apply Hallow; exists "/api/auth"; split; [simpl; tauto | reflexivity]|].
  split; [rewrite Hexact; reflexivity|].
  split; [rewrite Hexact; reflexivity|].
  split; [apply Hskip; right; right; left; reflexivity|].
  destruct (AuthConfig.authorized None "/dashboard") eqn:E; [|reflexivity].
  apply Hcb in E; [contradiction | discriminate].
Defined.

End Routes.

(* ===================================================================== *)
(** ** Mutations over the user table *)
(* ===================================================================== *)

Section OnTable.
Import Store AuthUtils Zod UserActions SettingsRoute.
Variable isEmail : string -> bool.

#[local] Hint Extern 0 (Platform World) => exact (platform isEmail) : typeclass_instances.

Lemma user_update_other (id other : string) (data : UserUpdateInput) (w : World) :
  other <> id ->
  users (snd (user_update id data w)) !! other = users w !! other.
Proof.
  intros Hne. unfold user_update.
  destruct (users w !! id) as [row|]; [|reflexivity].
  destruct (set_email data) as [e|];
    [destruct (email_used_by_other id e (users w)); [reflexivity|]|];
    simpl; apply lookup_insert_ne; congruence.
Qed.

Lemma user_delete_other (id other : string) (w : World) :
  other <> id ->
  users (snd (user_delete id w)) !! other = users w !! other.
Proof.
  intros Hne. unfold user_delete.
  destruct (users w !! id) as [row|]; [|reflexivity].
  simpl. apply lookup_delete_ne. congruence.
Qed.

Lemma table_auth (w : World) : auth w = (Returned (current_session w), w).
Proof. reflexivity. Qed.

Lemma updateProfile_other (formData : FormData) (w : World) (u : SessionUser)
    (other : string) :
  optional_user (current_session w) = Some u ->
  other <> su_id u ->
  users (snd (updateProfile formData w)) !! other = users w !! other.
Proof.
  intros Hu Hne. unfold updateProfile. run.
  rewrite (requireUser_grants w w _ u (table_auth w) Hu).
  destruct (updateProfileSchema_safeParse (FormData_get "name" formData)) as [n|errs];
    [|reflexivity].
  pose proof (user_update_other (su_id u) other
                {| set_name := Some n; set_email := None |} w Hne) as Hupd.
  destruct (user_update (su_id u) {| set_name := Some n; set_email := None |} w)
    as [[row|e] w1]; simpl in *.
  - exact Hupd.
  - destruct (instanceofError e && String.eqb (error_name e) "AuthenticationError");
      exact Hupd.
Qed.

Lemma PUT_other (request : Request) (w : World) (u : SessionUser) (other : string) :
  optional_user (current_session w) = Some u ->
  other <> su_id u ->
  users (snd (PUT request w)) !! other = users w !! other.
Proof.
  intros Hu Hne. unfold PUT. run.
  rewrite (requireApiAuth_grants w w _ u (table_auth w) Hu).
  unfold Request_json. destruct (request_body request) as [value|msg]; run.
  - destruct (updateSettingsSchema_safeParse value) as [data|errs]; [|reflexivity].
    pose proof (user_update_other (su_id u) other
                  {| set_name := input_name data; set_email := input_email data |}
                  w Hne) as Hupd.
    destruct (user_update (su_id u)
                {| set_name := input_name data; set_email := input_email data |} w)
      as [[row|e] w1]; simpl in *.
    + exact Hupd.
    + destruct (instanceofError e && includes (error_message e) "Unique constraint");
        exact Hupd.
  - destruct (includes msg "Unique constraint"); reflexivity.
Qed.

Lemma deleteAccount_other (w : World) (u : SessionUser) (other : string) :
  optional_user (current_session w) = Some u ->
  other <> su_id u ->
  users (snd (deleteAccount w)) !! other = users w !! other.
Proof.
  intros Hu Hne. unfold deleteAccount. run.
  rewrite (requireUser_grants w w _ u (table_auth w) Hu).
  unfold transaction. run.
  pose proof (user_delete_other (su_id u) other w Hne) as Hdel.
  destruct (user_delete (su_id u) w) as [[row|e] w1]; simpl in *.
  - exact Hdel.
  - destruct (instanceofError e && String.eqb (error_name e) "AuthenticationError");
      reflexivity.
Qed.

Lemma or_string_empty (s : string) : or_string s "" = s.
Proof.
  unfold or_string. destruct (String.eqb_spec s ""); congruence.
Qed.

(** What the settings update does over the table, for a session user
    whose record is there and a body the schema accepts: 409 and nothing
    written when the new email belongs to another record, otherwise 200
    with the updated record, which replaces the old one. *)
Lemma PUT_on_table (w : World) (u : SessionUser) (row : UserRow) (body : json)
    (data : SettingsInput) :
  optional_user (current_session w) = Some u ->
  users w !! su_id u = Some row ->
  updateSettingsSchema_safeParse (W:=World) body = ParseSuccess data ->
  PUT {| request_body := ValidJson body |} w =
    if match input_email data with
       | Some e => email_used_by_other (su_id u) e (users w)
       | None => false
       end
    then (Returned (Response_json (JObj [("error", JStr "Email already in use")]) 409), w)
    else
      (Returned
         (Response_json
            (JObj [("settings",
                    settings_json
                      (apply_update {| set_name := input_name data;
                                       set_email := input_email data |} row));
                   ("message", JStr "Settings updated successfully")]) 200),
       with_users w
         (<[su_id u := apply_update {| set_name := input_name data;
                                       set_email := input_email data |} row]> (users w))).
Proof.
  intros Hu Hrow Hvalid. unfold PUT. run.
  rewrite (requireApiAuth_grants w w _ u (table_auth w) Hu).
  unfold Request_json. run. rewrite Hvalid.
  unfold user_update. simpl. rewrite Hrow.
  destruct (input_email data) as [e|]; [|reflexivity].
  destruct (email_used_by_other (su_id u) e (users w)); reflexivity.
Qed.

(** What the profile update does over the table for a session user whose
    record is there and a name the schema accepts. *)
Lemma updateProfile_on_table (formData : FormData) (w : World) (u : SessionUser)
    (row : UserRow) (s : string) :
  optional_user (current_session w) = Some u ->
  users w !! su_id u = Some row ->
  FormData_get "name" formData = Some (FormString s) ->
  1 <= js_length s <= 100 ->
  updateProfile formData w =
    (Returned (Success {| profile_name := s;
                          profile_email := or_null (user_email row) "" |}),
     with_users w
       (<[su_id u := {| user_id := user_id row; user_name := Some s;
                        user_email := user_email row;
                        user_createdAt := user_createdAt row |}]> (users w))).
Proof.
  intros Hu Hrow Hget Hlen. unfold updateProfile. run.
  rewrite (requireUser_grants w w _ u (table_auth w) Hu), Hget.
  unfold updateProfileSchema_safeParse.
  destruct (Z.ltb_spec (js_length s) 1); [lia|].
  destruct (Z.ltb_spec 100 (js_length s)); [lia|]. simpl.
  unfold user_update. simpl. rewrite Hrow. simpl. rewrite or_string_empty. reflexivity.
Qed.

(** What the account deletion does over the table for a session user whose
    record is there. *)
Lemma deleteAccount_on_table (w : World) (u : SessionUser) (row : UserRow) :
  optional_user (current_session w) = Some u ->
  users w !! su_id u = Some row ->
  deleteAccount w =
    (Returned (Success {| deleted := true |}),
     {| users := delete (su_id u) (users w); current_session := None;
        clock := clock w |}).
Proof.
  intros Hu Hrow. unfold deleteAccount. run.
  rewrite (requireUser_grants w w _ u (table_auth w) Hu).
  unfold transaction, user_delete. run. rewrite Hrow. simpl.
  unfold sessions_without. rewrite Hu, String.eqb_refl. reflexivity.
Qed.

(** A field of the form other than name, and a key of the body other than
    name and email, change nothing in what the mutation does. *)
Lemma updateProfile_ignores_field (key : string) (value : FormDataEntryValue)
    (formData : FormData) (w : World) :
  key <> "name" ->
  updateProfile ((key, value) :: formData) w = updateProfile formData w.
Proof.
  intros Hkey. unfold updateProfile. simpl FormData_get.
  destruct (String.eqb_spec key "name"); [contradiction | reflexivity].
Qed.

Lemma PUT_ignores_key (key : string) (value : json) (fields : list (string * json))
    (w : World) :
  key <> "name" -> key <> "email" ->
  PUT {| request_body := ValidJson (JObj ((key, value) :: fields)) |} w =
  PUT {| request_body := ValidJson (JObj fields) |} w.
Proof.
  intros Hname Hemail.
  assert (Hparse : updateSettingsSchema_safeParse (W:=World)
                     (JObj ((key, value) :: fields))
                   = updateSettingsSchema_safeParse (W:=World) (JObj fields)).
  { unfold updateSettingsSchema_safeParse. simpl json_get.
    destruct (String.eqb_spec key "name"); [contradiction|].
    destruct (String.eqb_spec key "email"); [contradiction|]. reflexivity. }
  unfold PUT, bind.
  destruct (requireApiAuth w) as [[[err resp|user]|e] w1]; try reflexivity.
  unfold try_catch, Request_json, bind, ret. cbn [request_body].
  rewrite Hparse. reflexivity.
Qed.

(** C3, as amended. A mutation has no target account: with a session for
    account A, a profile update, a settings update and an account deletion
    act on the record of A and leave the record of every other account B
    as it was, whatever the input carries. A profile update with a valid
    name writes that name to the record of A, a settings update with a
    valid body writes its name and email to the record of A (or answers
    409 and writes nothing when the email belongs to another record), and
    an account deletion removes the record of A. No mutation is rejected
    for naming another account: a form field other than name and a body
    key other than name and email are ignored, so the request does what
    the same request without them does. *)
Theorem C3_mutations_write_only_own_record
    (w : World) (u : SessionUser) (other : string)
    (Hsession : optional_user (current_session w) = Some u)
    (Hother : other <> su_id u) :
  (forall formData,
      users (snd (updateProfile formData w)) !! other = users w !! other) /\
  (forall request, users (snd (PUT request w)) !! other = users w !! other) /\
  users (snd (deleteAccount w)) !! other = users w !! other /\
  (forall formData data,
      fst (updateProfile formData w) = Returned (Success data) ->
      exists row,
        users w !! su_id u = Some row /\
        FormData_get "name" formData = Some (FormString (profile_name data)) /\
        users (snd (updateProfile formData w)) !! su_id u =
          Some {| user_id := user_id row;
                  user_name := Some (profile_name data);
                  user_email := user_email row;
                  user_createdAt := user_createdAt row |}) /\
  (forall formData row s,
      users w !! su_id u = Some row ->
      FormData_get "name" formData = Some (FormString s) ->
      1 <= js_length s <= 100 ->
      updateProfile formData w =
        (Returned (Success {| profile_name := s;
                              profile_email := or_null (user_email row) "" |}),
         with_users w
           (<[su_id u := {| user_id := user_id row; user_name := Some s;
                            user_email := user_email row;
                            user_createdAt := user_createdAt row |}]> (users w)))) /\
  (forall row body data,
      users w !! su_id u = Some row ->
      updateSettingsSchema_safeParse (W:=World) body = ParseSuccess data ->
      PUT {| request_body := ValidJson body |} w =
        if match input_email data with
           | Some e => email_used_by_other (su_id u) e (users w)
           | None => false
           end
        then (Returned (Response_json (JObj [("error", JStr "Email already in use")]) 409),
              w)
        else
          (Returned
             (Response_json
                (JObj [("settings",
                        settings_json
                          (apply_update {| set_name := input_name data;
                                           set_email := input_email data |} row));
                       ("message", JStr "Settings updated successfully")]) 200),
           with_users w
             (<[su_id u := apply_update {| set_name := input_name data;
                                           set_email := input_email data |} row]>
                (users w)))) /\
  (forall row,
      users w !! su_id u = Some row ->
      deleteAccount w =
        (Returned (Success {| deleted := true |}),
         {| users := delete (su_id u) (users w); current_session := None;
            clock := clock w |})) /\
  (forall key value formData,
      key <> "name" ->
      updateProfile ((key, value) :: formData) w = updateProfile formData w) /\
  (forall key value fields,
      key <> "name" -> key <> "email" ->
      PUT {| request_body := ValidJson (JObj ((key, value) :: fields)) |} w =
      PUT {| request_body := ValidJson (JObj fields) |} w).
Proof.
  split; [intros; eapply updateProfile_other; eassumption|].
  split; [intros; eapply PUT_other; eassumption|].
  split; [eapply deleteAccount_other; eassumption|].
  split.
  { intros formData data. unfold updateProfile. run.
    rewrite (requireUser_grants w w _ u (table_auth w) Hsession).
    unfold updateProfileSchema_safeParse.
    destruct (FormData_get "name" formData) as [[s|f]|]; simpl; try discriminate.
    destruct ((if js_length s <? 1 then _ else _)
              ++ (if 100 <? js_length s then _ else _))%list;
      [|discriminate].
    unfold user_update. simpl.
    destruct (users w !! su_id u) as [row|]; simpl; [|discriminate].
    intros Hres. injection Hres as <-. simpl.
    exists row. rewrite or_string_empty.
    split; [reflexivity|]. split; [reflexivity|].
    apply lookup_insert_eq. }
  split; [intros formData row s; apply updateProfile_on_table; exact Hsession|].
  split; [intros row body data; apply PUT_on_table; exact Hsession|].
  split; [intros row; apply deleteAccount_on_table; exact Hsession|].
  split; [intros key value formData; apply updateProfile_ignores_field|].
  intros key value fields. apply PUT_ignores_key.
Qed.

(** The settings update of an authenticated request whose body parses
    but fails the schema answers 400 with the field errors, and the world
    is the one session resolution left. *)
Lemma PUT_schema_failure (body : json) (errors : list ZodIssue) (w : World)
    (u : SessionUser) :
  optional_user (current_session w) = Some u ->
  updateSettingsSchema_safeParse (W:=World) body = ParseError errors ->
  PUT {| request_body := ValidJson body |} w =
    (Returned (Response_json
                 (JObj [("error", JStr "Invalid input");
                        ("details", fieldErrors_json errors)]) 400), w).
Proof.
  intros Hu Hparse. unfold PUT. run.
  rewrite (requireApiAuth_grants w w _ u (table_auth w) Hu).
  unfold Request_json. run. rewrite Hparse. reflexivity.
Qed.

(** A body that is not JSON makes [request.json()] throw inside the [try]
    block; the [catch] clause answers 409 when the message of the syntax
    error contains the words it looks for and 500 otherwise. *)
Lemma PUT_unparseable_body (message : string) (w : World) (u : SessionUser) :
  optional_user (current_session w) = Some u ->
  PUT {| request_body := InvalidJson message |} w =
    (Returned
       (if includes message "Unique constraint"
        then Response_json (JObj [("error", JStr "Email already in use")]) 409
        else Response_json (JObj [("error", JStr "Internal server error")]) 500), w).
Proof.
  intros Hu. unfold PUT. run.
  rewrite (requireApiAuth_grants w w _ u (table_auth w) Hu).
  unfold Request_json. run.
  destruct (includes message "Unique constraint"); reflexivity.
Qed.

Lemma email_used_by_other_true (id other email : string) (row : UserRow)
    (table : gmap string UserRow) :
  table !! other = Some row ->
  other <> id ->
  user_email row = Some email ->
  email_used_by_other id email table = true.
Proof.
  intros Hlook Hne Hemail. unfold email_used_by_other.
  apply bool_decide_eq_true. apply map_Exists_lookup.
  exists other, row. auto.
Qed.

(** C8. A settings update by account A whose validated email is the email
    of a different account answers 409 "Email already in use", and the
    world, both records in it, is as it was. *)
Theorem C8_email_conflict_409
    (w : World) (u : SessionUser) (row other_row : UserRow) (other email : string)
    (body : json) (data : SettingsInput)
    (Hsession : optional_user (current_session w) = Some u)
    (Hown : users w !! su_id u = Some row)
    (Hother : users w !! other = Some other_row)
    (Hne : other <> su_id u)
    (Hused : user_email other_row = Some email)
    (Hvalid : updateSettingsSchema_safeParse (W:=World) body = ParseSuccess data)
    (Hemail : input_email data = Some email) :
  PUT {| request_body := ValidJson body |} w =
    (Returned (Response_json (JObj [("error", JStr "Email already in use")]) 409), w).
Proof.
  unfold PUT. run.
  rewrite (requireApiAuth_grants w w _ u (table_auth w) Hsession).
  unfold Request_json. run. rewrite Hvalid.
  unfold user_update. simpl. rewrite Hown, Hemail.
  rewrite (email_used_by_other_true _ _ _ _ _ Hother Hne Hused).
  reflexivity.
Qed.

End OnTable.

(* ===================================================================== *)
(** ** Account statistics *)
(* ===================================================================== *)

Section Stats.
Context {W : Type} `{Platform W}.
Import AuthUtils UserActions.

(** C10. When [getUserStats] succeeds, [lastSignIn] is null and
    [accountAge] is the number of whole days between the creation
    timestamp of the row found for the session's user and the clock:
    the quotient, rounded down, of the elapsed milliseconds by the
    milliseconds of a day. *)
Theorem C10_getUserStats_data (w w' : W) (data : StatsData)
    (Hok : getUserStats w = (Returned (Success data), w')) :
  lastSignIn data = None /\
  exists session w1 row,
    requireAuth w = (Returned session, w1) /\
    prisma_user_findUnique (su_id (authed_user session)) w1 = (Returned (Some row), w') /\
    accountAge data = (Date_now w' - user_createdAt row) / 86400000 /\
    86400000 * accountAge data <= Date_now w' - user_createdAt row
      < 86400000 * (accountAge data + 1).
Proof.
  revert Hok. unfold getUserStats. run.
  destruct (requireAuth w) as [[session|e] w1].
  - destruct (prisma_user_findUnique (su_id (authed_user session)) w1)
      as [[[row|]|e] w2] eqn:Hfind; simpl.
    + intros Hok. injection Hok as <- <-. simpl.
      split; [reflexivity|].
      exists session, w1, row.
      split; [reflexivity|]. split; [exact Hfind|].
      change (1000 * 60 * 60 * 24) with 86400000.
      split; [reflexivity|].
      pose proof (Z.mod_pos_bound (Date_now w2 - user_createdAt row) 86400000).
      pose proof (Z.div_mod (Date_now w2 - user_createdAt row) 86400000).
      lia.
    + discriminate.
    + destruct (instanceofError e && String.eqb (error_name e) "AuthenticationError");
        discriminate.
  - simpl. destruct (instanceofError e && String.eqb (error_name e) "AuthenticationError");
      discriminate.
Qed.

End Stats.

(* ===================================================================== *)
(** ** The signature counter *)
(* ===================================================================== *)

Section Counter.
Import Ceremony.
Variable verify_signature : string -> Assertion -> bool.

Lemma counter_accepted_spec (presented stored : N) :
  counter_accepted presented stored = true <->
  (stored < presented)%N \/ (presented = 0%N /\ stored = 0%N).
Proof.
  unfold counter_accepted.
  rewrite orb_true_iff, andb_true_iff, N.ltb_lt, !N.eqb_eq. reflexivity.
Qed.

(** C6. In the ceremony as the specification describes it: when an
    authentication succeeds, the credential's stored counter is the
    presented one, and it is strictly greater than the counter stored
    before unless the presented and the stored counter are both zero; an
    assertion whose counter is at most a nonzero stored counter is
    rejected, and the stored credentials are unchanged. *)
Theorem C6_signature_counter
    (cfg : Config) (now : Z) (a : Assertion) (st : State) (cred : Credential)
    (Hcred : credentials st !! as_credentialId a = Some cred) :
  (forall account st',
      complete_authentication verify_signature cfg now a st = (inr account, st') ->
      exists cred',
        credentials st' !! as_credentialId a = Some cred' /\
        cred_counter cred' = as_counter a /\
        ((cred_counter cred < cred_counter cred')%N \/
         (as_counter a = 0%N /\ cred_counter cred = 0%N /\ cred_counter cred' = 0%N))) /\
  ((as_counter a <= cred_counter cred)%N ->
   cred_counter cred <> 0%N ->
   exists err st',
     complete_authentication verify_signature cfg now a st = (inl err, st') /\
     credentials st' = credentials st).
Proof.
  unfold complete_authentication. rewrite Hcred. split.
  - intros account st'.
    destruct (challenges st !! as_challenge a) as [ch|]; [|discriminate].
    destruct (counter_accepted (as_counter a) (cred_counter cred)) eqn:Hc; simpl;
      repeat match goal with
             | |- context [if negb ?b then _ else _] => destruct b; simpl
             end;
      try discriminate.
    intros Hres. injection Hres as <- <-. simpl.
    eexists. split; [apply lookup_insert_eq|]. simpl. split; [reflexivity|].
    apply counter_accepted_spec in Hc. destruct Hc as [Hlt|[H0 H1]]; [left; exact Hlt|].
    right. auto.
  - intros Hle Hnz.
    destruct (counter_accepted (as_counter a) (cred_counter cred)) eqn:Hc.
    { apply counter_accepted_spec in Hc. lia. }
    destruct (challenges st !! as_challenge a) as [ch|]; [|eauto].
    simpl.
    repeat match goal with
           | |- context [if negb ?b then _ else _] => destruct b; simpl
           end;
      eauto.
Qed.

End Counter.

(* ===================================================================== *)
(** ** Concrete runs *)
(* ===================================================================== *)

Section Runs.
Import Store Scenario Proxy AuthUtils Zod UserActions SettingsRoute.

(** C3 fails as stated: signed in as alice, a profile update and a
    settings update that name bob are not rejected; they succeed and write
    the record of alice. *)
Lemma C3_update_naming_another_account :
  optional_user (current_session signed_in)
    = Some (mkSessionUser "alice" (Some "Alice") (Some "alice@example.com")) /\
  fst (@updateProfile World P form_naming_bob signed_in)
    = Returned (Success {| profile_name := "Mallory";
                           profile_email := "alice@example.com" |}) /\
  users (snd (@updateProfile World P form_naming_bob signed_in)) !! "alice"
    = Some (mkUserRow "alice" (Some "Mallory") (Some "alice@example.com") 0) /\
  users (snd (@updateProfile World P form_naming_bob signed_in)) !! "bob" = Some bob /\
  status (match fst (@PUT World P (mkRequest (ValidJson body_naming_bob)) signed_in) with
          | Returned response => response
          | Threw _ => unauthorized401
          end) = 200 /\
  users (snd (@PUT World P (mkRequest (ValidJson body_naming_bob)) signed_in)) !! "alice"
    = Some (mkUserRow "alice" (Some "Mallory") (Some "alice@example.com") 0).
Proof. repeat split; vm_compute; reflexivity. Qed.

(** C3 on the session of alice and the record of bob. *)
Lemma C3_mutations_write_only_own_record_witness :
  users (snd (@updateProfile World P form_naming_bob signed_in)) !! "bob"
    = users signed_in !! "bob" /\
  users (snd (@deleteAccount World P signed_in)) !! "bob" = users signed_in !! "bob".
Proof.
  destruct (C3_mutations_write_only_own_record has_at signed_in
              (mkSessionUser "alice" (Some "Alice") (Some "alice@example.com")) "bob"
              eq_refl ltac:(discriminate)) as (Hupdate & _ & Hdelete & _).
  split; [apply Hupdate | apply Hdelete].
Defined.

(** C4 on a request for the dashboard, signed out and signed in. *)
Lemma C4_proxy_decision_witness :
  (exists target,
      @proxy World P (mkNextRequest localhost "/dashboard") signed_out
        = (Returned (NextResponse_redirect target), signed_out) /\
      url_origin target = localhost /\
      url_pathname target = "/auth/signin" /\
      searchParams_get "callbackUrl" (url_searchParams target) = Some "/dashboard") /\
  @proxy World P (mkNextRequest localhost "/dashboard") signed_in
    = (Returned NextResponse_next, signed_in).
Proof.
  split.
  - exact (proj1 (@C4_proxy_decision World P (mkNextRequest localhost "/dashboard")
                    signed_out signed_out None eq_refl eq_refl) eq_refl).
  - exact (proj2 (@C4_proxy_decision World P (mkNextRequest localhost "/dashboard")
                    signed_in signed_in (Some alice_session) eq_refl eq_refl)
             _ eq_refl).
Defined.

(** C5 on a profile form submitted without a session cookie. *)
Lemma C5_updateProfile_without_session_witness :
  fst (@updateProfile World P form_naming_bob signed_out)
    = Returned (Failure "You must be signed in to update your profile") /\
  users (snd (@updateProfile World P form_naming_bob signed_out)) = users signed_out.
Proof.
  destruct (@C5_updateProfile_without_session World P _ users
              (fun w0 => eq_refl) form_naming_bob signed_out None eq_refl eq_refl)
    as (Hres & _ & Hframe).
  split; [exact Hres | exact Hframe].
Defined.

(** C7: the failing input. Signed in as alice, a settings update whose
    body is not JSON answers 500 "Internal server error" where the
    handler's documentation promises 400 for invalid input. *)
Theorem C7_unparseable_body_answers_500 :
  @PUT World P (mkRequest (InvalidJson "Unexpected end of JSON input")) signed_in
    = (Returned (Response_json (JObj [("error", JStr "Internal server error")]) 500),
       signed_in).
Proof. reflexivity. Qed.

(** C8 on alice asking for the email of bob. *)
Lemma C8_email_conflict_409_witness :
  @PUT World P (mkRequest (ValidJson body_taking_email)) signed_in
    = (Returned (Response_json (JObj [("error", JStr "Email already in use")]) 409),
       signed_in).
Proof.
  exact (C8_email_conflict_409 has_at signed_in
           (mkSessionUser "alice" (Some "Alice") (Some "alice@example.com"))
           alice bob "bob" "bob@example.com" body_taking_email
           {| input_name := None; input_email := Some "bob@example.com" |}
           eq_refl eq_refl eq_refl ltac:(discriminate) eq_refl eq_refl eq_refl).
Defined.

(** C10 on the account of alice, two and a half days old. *)
Lemma C10_getUserStats_data_witness :
  @getUserStats World P signed_in
    = (Returned (Success {| accountAge := 2; lastSignIn := None |}), signed_in) /\
  lastSignIn {| accountAge := 2; lastSignIn := None |} = None.
Proof.
  assert (Hrun : @getUserStats World P signed_in
                 = (Returned (Success {| accountAge := 2; lastSignIn := None |}), signed_in))
    by reflexivity.
  split; [exact Hrun|].
  exact (proj1 (@C10_getUserStats_data World P signed_in signed_in _ Hrun)).
Defined.

(** C6 on a credential whose stored counter is 5: an assertion with
    counter 6 moves the stored counter to 6, one with counter 5 is
    rejected. *)
Lemma C6_signature_counter_witness :
  (exists cred',
      Ceremony.credentials
        (snd (Ceremony.complete_authentication accept_all config 1000 (assertion 6) ceremony))
        !! "cred-1" = Some cred' /\
      Ceremony.cred_counter cred' = 6%N) /\
  (exists err st',
      Ceremony.complete_authentication accept_all config 1000 (assertion 5) ceremony
        = (inl err, st')).
Proof.
  split.
  - destruct (proj1 (C6_signature_counter accept_all config 1000 (assertion 6) ceremony
                       credential eq_refl) "alice" _ eq_refl)
      as (cred' & Hlook & Hcount & _).
    exists cred'. split; [exact Hlook | exact Hcount].
  - destruct (proj2 (C6_signature_counter accept_all config 1000 (assertion 5) ceremony
                       credential eq_refl) ltac:(vm_compute; discriminate)
                ltac:(discriminate))
      as (err & st' & Hrun & _).
    exists err, st'. exact Hrun.
Defined.

End Runs.

(* ===================================================================== *)
(** ** More on routes and the proxy *)
(* ===================================================================== *)

Section RouteFacts.
Import Proxy.

Lemma prefix_app (s t : string) : String.prefix s (s ++ t) = true.
Proof.
  induction s as [|c s IH]; simpl; [destruct t; reflexivity|].
  destruct (ascii_dec c c); [exact IH | contradiction].
Qed.

Lemma prefix_cons_inv (a : ascii) (s p : string) :
  String.prefix (String a s) p = true ->
  exists rest, p = String a rest /\ String.prefix s rest = true.
Proof.
  destruct p as [|b rest]; simpl; [discriminate|].
  destruct (ascii_dec a b) as [->|]; [|discriminate].
  intros Hp. exists rest. auto.
Qed.

Lemma prefix_app_l (a b s : string) :
  String.prefix (a ++ b) s = true -> String.prefix a s = true.
Proof.
  revert s. induction a as [|c a IH]; intros s; simpl.
  - destruct s; reflexivity.
  - destruct s as [|d s]; simpl; [discriminate|].
    destruct (ascii_dec c d); [apply IH | discriminate].
Qed.

(** Prefix matching is on characters, not on path segments: a path made
    of a listed /auth or /api/ route and any text after it matches. *)
Theorem isRouteMatch_any_extension (route suffix : string) (routes : list string) :
  In route routes ->
  startsWith route "/api/" = true \/ startsWith route "/auth" = true ->
  isRouteMatch (route ++ suffix) routes = true.
Proof.
  intros Hin Hgroup. rewrite isRouteMatch_existsb. apply existsb_exists.
  exists route. split; [exact Hin|].
  rewrite (isRouteMatch_grouped _ _ Hgroup). unfold startsWith. apply prefix_app.
Qed.

Lemma isRouteMatch_any_extension_witness :
  isRouteMatch "/auth/signin-as-admin" authRoutes = true.
Proof.
  exact (isRouteMatch_any_extension "/auth/signin" "-as-admin" authRoutes
           ltac:(simpl; tauto) ltac:(right; reflexivity)).
Defined.

(** Every path on the allow-list of the proxy is a path the matcher keeps
    the proxy from running on: for a request the matcher hands to the
    proxy, the allow-list test of the proxy is false. *)
Theorem matcher_excludes_allow_list (pathname : string) :
  isRouteMatch pathname authRoutes = true -> config_matcher pathname = false.
Proof.
  intros Hm. apply authRoutes_by_prefix in Hm. destruct Hm as (route & Hin & Hp).
  unfold startsWith in Hp.
  assert (Hcase : exists rest, pathname = String "/" rest /\
                    (String.prefix "auth" rest = true \/
                     String.prefix "api/auth" rest = true)).
  { simpl in Hin. destruct Hin as [<-|[<-|[<-|[<-|[]]]]];
      apply prefix_cons_inv in Hp; destruct Hp as (rest & -> & Hp);
      exists rest; (split; [reflexivity|]).
    - left. exact (prefix_app_l "auth" "/signin" rest Hp).
    - left. exact (prefix_app_l "auth" "/error" rest Hp).
    - left. exact (prefix_app_l "auth" "/signout" rest Hp).
    - right. exact Hp. }
  destruct Hcase as (rest & -> & Hcase).
  unfold config_matcher, matcher_lookahead, startsWith.
  destruct Hcase as [Hc|Hc]; rewrite Hc; rewrite ?orb_true_r; reflexivity.
Qed.

Lemma matcher_excludes_allow_list_witness :
  config_matcher "/api/auth/session" = false.
Proof. apply matcher_excludes_allow_list. reflexivity. Defined.

Lemma endsWith_png_has_dot (s : string) :
  Middleware.endsWith s ".png" = true -> includes s "." = true.
Proof.
  induction s as [|c s IH]; [discriminate|].
  change (Middleware.endsWith (String c s) ".png")
    with (String.eqb (String c s) ".png" || Middleware.endsWith s ".png").
  change (includes (String c s) ".")
    with (String.prefix "." (String c s) || includes s ".").
  destruct (String.eqb_spec (String c s) ".png") as [Heq|_].
  - intros _. rewrite Heq. reflexivity.
  - intros Hs. rewrite (IH Hs). apply orb_true_r.
Qed.

(** The matcher of proxy.ts skips every path the matcher of the earlier
    middleware skipped: a path the proxy runs on is a path the middleware
    ran on. *)
Theorem matcher_refines_middleware (pathname : string) :
  config_matcher pathname = true -> Middleware.config_matcher pathname = true.
Proof.
  unfold config_matcher, Middleware.config_matcher.
  destruct pathname as [|c rest]; [discriminate|].
  destruct (Ascii.eqb_spec c "/") as [->|Hne].
  - rewrite !negb_true_iff. unfold matcher_lookahead, Middleware.matcher_lookahead.
    intros Hnew. repeat (apply orb_false_elim in Hnew; destruct Hnew as [Hnew ?]).
    destruct (Middleware.endsWith rest ".png") eqn:Hpng.
    { apply endsWith_png_has_dot in Hpng. congruence. }
    repeat match goal with Hx : _ = false |- _ => rewrite Hx; clear Hx end.
    reflexivity.
  - destruct c as [[] [] [] [] [] [] [] []]; try discriminate. contradiction.
Qed.

Lemma matcher_refines_middleware_witness :
  Middleware.config_matcher "/dashboard" = true.
Proof. apply matcher_refines_middleware. reflexivity. Defined.

End RouteFacts.

Section MatchedRequests.
Context {W : Type} `{Platform W}.
Import Proxy AuthUtils UserActions SettingsRoute.

(** A path the matcher selects is outside the allow-list of the proxy:
    every allow-listed path begins with /auth or /api/auth, and the
    matcher selects no such path. *)
Lemma matched_outside_allow_list (pathname : string) :
  config_matcher pathname = true -> isRouteMatch pathname authRoutes = false.
Proof.
  intros Hmatched.
  destruct (isRouteMatch pathname authRoutes) eqn:Hallow; [|reflexivity].
  apply authRoutes_by_prefix in Hallow. destruct Hallow as (route & Hin & Hp).
  unfold startsWith in Hp. simpl in Hin.
  assert (Hlook : exists rest, pathname = String "/" rest /\ matcher_lookahead rest = true).
  { destruct Hin as [<-|[<-|[<-|[<-|[]]]]];
      apply prefix_cons_inv in Hp; destruct Hp as (rest & -> & Hp);
      exists rest; (split; [reflexivity|]); unfold matcher_lookahead, startsWith.
    - rewrite (prefix_app_l "auth" "/signin" rest Hp), ?orb_true_r. reflexivity.
    - rewrite (prefix_app_l "auth" "/error" rest Hp), ?orb_true_r. reflexivity.
    - rewrite (prefix_app_l "auth" "/signout" rest Hp), ?orb_true_r. reflexivity.
    - rewrite Hp. reflexivity. }
  destruct Hlook as (rest & -> & Hlook).
  unfold config_matcher in Hmatched. rewrite Hlook in Hmatched. discriminate.
Qed.

(** C1. When session resolution yields no user, each checkpoint denies on
    its own call of [auth()], and the world it leaves is the one that call
    left. The proxy answers every request the matcher hands to it, and
    more generally every request whose path is not on its allow-list, with
    the redirect to the sign-in page; the API route guard and the settings
    handlers answer 401; each server action returns its sign-in
    failure. *)
Theorem C1_checkpoints_deny_without_session
    (w w' : W) (session : option Session)
    (Hauth : auth w = (Returned session, w'))
    (Hnone : optional_user session = None) :
  (forall request,
      config_matcher (nextUrl_pathname request) = true ->
      proxy request w = (Returned (signInRedirect request), w')) /\
  (forall request,
      isRouteMatch (nextUrl_pathname request) authRoutes = false ->
      proxy request w = (Returned (signInRedirect request), w')) /\
  requireApiAuth w = (Returned (ApiAuth_error "Unauthorized" unauthorized401), w') /\
  GET w = (Returned unauthorized401, w') /\
  (forall request, PUT request w = (Returned unauthorized401, w')) /\
  (forall formData,
      updateProfile formData w =
        (Returned (Failure "You must be signed in to update your profile"), w')) /\
  deleteAccount w =
    (Returned (Failure "You must be signed in to delete your account"), w') /\
  getUserStats w = (Returned (Failure "You must be signed in to view stats"), w').
Proof.
  repeat split; intros.
  - eapply proxy_denies; try eassumption. now apply matched_outside_allow_list.
  - eapply proxy_denies; eassumption.
  - eapply requireApiAuth_denies; eassumption.
  - eapply GET_denies; eassumption.
  - eapply PUT_denies; eassumption.
  - eapply updateProfile_denies; eassumption.
  - eapply deleteAccount_denies; eassumption.
  - eapply getUserStats_denies; eassumption.
Qed.

End MatchedRequests.

(** C1 on a request without a session cookie. *)
Lemma C1_checkpoints_deny_witness :
  Proxy.config_matcher "/dashboard" = true /\
  @Proxy.proxy Store.World Scenario.P
     (Proxy.mkNextRequest Scenario.localhost "/dashboard") Scenario.signed_out
    = (Returned (signInRedirect (Proxy.mkNextRequest Scenario.localhost "/dashboard")),
       Scenario.signed_out) /\
  @SettingsRoute.PUT Store.World Scenario.P
     (SettingsRoute.mkRequest (SettingsRoute.ValidJson Scenario.body_naming_bob))
     Scenario.signed_out
    = (Returned unauthorized401, Scenario.signed_out) /\
  @UserActions.updateProfile Store.World Scenario.P Scenario.form_naming_bob
     Scenario.signed_out
    = (Returned (UserActions.Failure "You must be signed in to update your profile"),
       Scenario.signed_out).
Proof.
  destruct (@C1_checkpoints_deny_without_session Store.World Scenario.P
              Scenario.signed_out Scenario.signed_out None eq_refl eq_refl)
    as (Hproxy & _ & _ & _ & Hput & Hupdate & _ & _).
  split; [reflexivity|].
  split; [apply Hproxy; reflexivity|].
  split; [apply Hput | apply Hupdate].
Defined.

Section ProxyFacts.
Context {W : Type} `{Platform W}.
Import Proxy AuthUtils.

(** Whatever the session state and the behaviour of [auth()], a redirect
    answered by the proxy goes to /auth/signin on the origin of the
    request, carries the path of the request as its only query parameter,
    and is never the answer to a request for an allow-listed path. *)
Theorem proxy_redirects_only_to_sign_in
    (request : NextRequest) (w w' : W) (target : URL) :
  proxy request w = (Returned (NextResponse_redirect target), w') ->
  target = {| url_origin := request_origin request;
              url_pathname := "/auth/signin";
              url_searchParams := [("callbackUrl", nextUrl_pathname request)] |} /\
  isRouteMatch (nextUrl_pathname request) authRoutes = false /\
  config_matcher (url_pathname target) = false.
Proof.
  unfold proxy.
  destruct (isRouteMatch (nextUrl_pathname request) authRoutes); [discriminate|].
  run. destruct (auth w) as [[session|e] w1]; [|discriminate].
  destruct (optional_user session); [discriminate|].
  intros Hres. injection Hres as <- _. repeat split.
Qed.

(** The proxy throws exactly when the request is for a path outside the
    allow-list and [auth()] throws, and then it throws the same value; a
    request for an allow-listed path is let through without a call of
    [auth()]. *)
Theorem proxy_throws_only_with_auth (request : NextRequest) (w : W) (e : Thrown) :
  (fst (proxy request w) = Threw e <->
   isRouteMatch (nextUrl_pathname request) authRoutes = false /\
   fst (auth w) = Threw e) /\
  (isRouteMatch (nextUrl_pathname request) authRoutes = true ->
   proxy request w = (Returned NextResponse_next, w)).
Proof.
  unfold proxy.
  destruct (isRouteMatch (nextUrl_pathname request) authRoutes).
  - split; [|reflexivity]. simpl. split; [discriminate | intros [Hf _]; discriminate].
  - split; [|discriminate]. run.
    destruct (auth w) as [[session|e'] w1]; simpl.
    + destruct (optional_user session); simpl;
        (split; [discriminate | intros [_ Hf]; discriminate]).
    + split; [intros Hf; split; [reflexivity | congruence] | intros [_ Hf]; congruence].
Qed.

(** The proxy is at least as strict as the [authorized] callback: when it
    lets a request for a path outside the allow-list through, both
    revisions of the callback accept the session it resolved. *)
Theorem proxy_stricter_than_callback
    (request : NextRequest) (w w' : W) (session : option Session) :
  isRouteMatch (nextUrl_pathname request) authRoutes = false ->
  auth w = (Returned session, w') ->
  proxy request w = (Returned NextResponse_next, w') ->
  AuthConfig.authorized session (nextUrl_pathname request) = true /\
  AuthConfig.authorized_protected_home session (nextUrl_pathname request) = true.
Proof.
  intros Hm Hauth. unfold proxy. rewrite Hm. run. rewrite Hauth.
  destruct session as [s|]; simpl.
  - intros _. unfold AuthConfig.authorized.
    destruct (String.eqb (nextUrl_pathname request) "/"); split; reflexivity.
  - discriminate.
Qed.

End ProxyFacts.

(* ===================================================================== *)
(** ** The guards and the pages *)
(* ===================================================================== *)

Section PageFacts.
Context {W : Type} `{Platform W}.
Import AuthUtils PageGuard Pages.



Lemma requireAuthWithRedirect_units_denies
    (redirectTo : option JsString) (w w' : W) (session : option Session) :
  auth w = (Returned session, w') ->
  optional_user session = None ->
  requireAuthWithRedirect_units redirectTo w =
    match redirectTo with
    | Some (c :: units) =>
        match encodeURIComponent (c :: units) with
        | Some escaped =>
            (Returned (Redirect ("/auth/signin?callbackUrl=" ++ escaped)), w')
        | None => (Threw URIError, w')
        end
    | _ => (Returned (Redirect "/auth/signin"), w')
    end.
Proof.
  intros Hauth Hnone.
  unfold requireAuthWithRedirect_units, redirect, bind, ret, throw. rewrite Hauth.
  destruct session as [s|]; cbn [optional_user] in Hnone; [rewrite Hnone|];
    (destruct redirectTo as [[|c units]|]; try reflexivity;
     destruct (encodeURIComponent (c :: units)); reflexivity).
Qed.

Lemma requireAuthWithRedirect_units_grants
    (redirectTo : option JsString) (w w' : W) (s : Session) (u : SessionUser) :
  auth w = (Returned (Some s), w') ->
  session_user s = Some u ->
  requireAuthWithRedirect_units redirectTo w =
    (Returned (Rendered {| authed_user := u; authed_expires := session_expires s |}), w').
Proof.
  intros Hauth Hu. unfold requireAuthWithRedirect_units. run.
  rewrite Hauth, Hu. reflexivity.
Qed.









(** The sign-in page and the protected pages cannot send a visitor in a
    circle. On one resolved session exactly one side redirects: with a
    user the sign-in page redirects to /dashboard and the dashboard and
    both home pages render; without a user the dashboard and the protected
    home page redirect to /auth/signin, and the sign-in page and the open
    home page render. *)
Theorem pages_no_redirect_loop
    (w w' : W) (session : option Session)
    (Hauth : auth w = (Returned session, w')) :
  (exists user,
      optional_user session = Some user /\
      SignInPage w = (Returned (Redirect "/dashboard"), w') /\
      (exists view, DashboardPage w = (Returned (Rendered view), w')) /\
      (exists view, Home_protected w = (Returned (Rendered view), w')) /\
      Home w = (Returned (Rendered (WelcomeBack (or_nullable (su_name user)
                                                  (su_email user)))), w')) \/
  (optional_user session = None /\
   SignInPage w = (Returned (Rendered SignInFormView), w') /\
   DashboardPage w = (Returned (Redirect "/auth/signin"), w') /\
   Home_protected w = (Returned (Redirect "/auth/signin"), w') /\
   Home w = (Returned (Rendered GetStarted), w')).
Proof.
  destruct (optional_user session) as [user|] eqn:Hu.
  - left. exists user. split; [reflexivity|].
    split; [unfold SignInPage, redirect; run; rewrite Hauth, Hu; reflexivity|].
    split; [eexists; unfold DashboardPage; run; rewrite Hauth, Hu; reflexivity|].
    split; [|unfold Home; run; rewrite Hauth, Hu; reflexivity].
    destruct session as [s|]; [|discriminate]. simpl in Hu.
    unfold Home_protected, requireAuthWithRedirect. unfold bind at 1.
    rewrite (requireAuthWithRedirect_units_grants _ w w' s user Hauth Hu).
    eexists. reflexivity.
  - right. split; [reflexivity|].
    split; [unfold SignInPage; run; rewrite Hauth, Hu; reflexivity|].
    split; [unfold DashboardPage, redirect; run; rewrite Hauth, Hu; reflexivity|].
    split; [|unfold Home; run; rewrite Hauth, Hu; reflexivity].
    unfold Home_protected, requireAuthWithRedirect. unfold bind at 1.
    rewrite (requireAuthWithRedirect_units_denies _ w w' session Hauth Hu).
    reflexivity.
Qed.

Lemma or_null_not_empty (a : option string) (b : string) :
  b <> "" -> UserActions.or_null a b <> "".
Proof.
  intros Hb. unfold UserActions.or_null, UserActions.or_string.
  destruct a as [s|]; [|exact Hb].
  destruct (String.eqb_spec s ""); assumption.
Qed.

Lemma or_null_cases (a : option string) (b : string) :
  (forall s, a = Some s -> s <> "" -> UserActions.or_null a b = s) /\
  (a = None \/ a = Some "" -> UserActions.or_null a b = b).
Proof.
  unfold UserActions.or_null, UserActions.or_string. split.
  - intros s -> Hs. destruct (String.eqb_spec s ""); [contradiction | reflexivity].
  - intros [->| ->]; reflexivity.
Qed.

(** The dashboard shows the identifier of the session's user, its name
    and its email; a name or an email that is null or the empty string is
    shown as "Not set", so neither field is ever shown empty. *)
Theorem DashboardPage_fields
    (w w' : W) (view : DashboardView)
    (Hrender : DashboardPage w = (Returned (Rendered view), w')) :
  exists session user,
    auth w = (Returned session, w') /\
    optional_user session = Some user /\
    shown_id view = su_id user /\
    shown_name view <> "" /\ shown_email view <> "" /\
    (su_name user = None \/ su_name user = Some "" -> shown_name view = "Not set") /\
    (su_email user = None \/ su_email user = Some "" -> shown_email view = "Not set") /\
    (forall s, su_name user = Some s -> s <> "" -> shown_name view = s) /\
    (forall s, su_email user = Some s -> s <> "" -> shown_email view = s).
Proof.
  revert Hrender. unfold DashboardPage, redirect. run.
  destruct (auth w) as [[session|e] w1]; [|discriminate].
  destruct (optional_user session) as [user|] eqn:Hu; [|discriminate].
  intros Hres. injection Hres as <- <-. exists session, user. simpl.
  split; [reflexivity|]. split; [exact Hu|]. split; [reflexivity|].
  split; [apply or_null_not_empty; discriminate|].
  split; [apply or_null_not_empty; discriminate|].
  split; [apply or_null_cases|]. split; [apply or_null_cases|].
  split; apply or_null_cases.
Qed.

End PageFacts.

Section ErrorPageFacts.
Import Pages.

(** The error page shows one of its four messages for every error code
    that is not the name of a member of [Object.prototype], and the
    default message unless the code is Configuration, AccessDenied or
    Verification; for the name of such a member the value it would show is
    not a string. *)
Theorem AuthErrorPage_message (error : option string) :
  (forall key, error = Some key -> ~ In key Object_prototype_names) ->
  exists text,
    AuthErrorPage_errorMessage error = Text text /\
    In text ["There is a problem with the server configuration.";
             "You do not have permission to sign in.";
             "The verification token has expired or has already been used.";
             errorMessages_Default] /\
    (error <> Some "Configuration" -> error <> Some "AccessDenied" ->
     error <> Some "Verification" -> text = errorMessages_Default).
Proof.
  intros Hown. destruct error as [key|]; simpl.
  2:{ eexists. split; [reflexivity|]. split; [simpl; tauto | reflexivity]. }
  specialize (Hown key eq_refl).
  destruct (String.eqb_spec key "") as [->|_].
  { eexists. split; [reflexivity|]. split; [simpl; tauto | reflexivity]. }
  unfold errorMessages.
  destruct (String.eqb_spec key "Configuration") as [->|_].
  { eexists. split; [reflexivity|]. split; [simpl; tauto | congruence]. }
  destruct (String.eqb_spec key "AccessDenied") as [->|_].
  { eexists. split; [reflexivity|]. split; [simpl; tauto | congruence]. }
  destruct (String.eqb_spec key "Verification") as [->|_].
  { eexists. split; [reflexivity|]. split; [simpl; tauto | congruence]. }
  destruct (String.eqb_spec key "Default") as [->|_].
  { eexists. split; [reflexivity|]. split; [simpl; tauto | reflexivity]. }
  destruct (existsb (String.eqb key) Object_prototype_names) eqn:Hproto.
  { exfalso. apply Hown. apply existsb_exists in Hproto.
    destruct Hproto as (name & Hin & Heq). apply String.eqb_eq in Heq. congruence. }
  eexists. split; [reflexivity|]. split; [simpl; tauto | reflexivity].
Qed.

Lemma AuthErrorPage_message_witness :
  AuthErrorPage_errorMessage (Some "OAuthCallbackError") = Text errorMessages_Default.
Proof.
  destruct (AuthErrorPage_message (Some "OAuthCallbackError")) as (text & Hm & _ & Hd).
  - intros key Hk. injection Hk as <-. simpl.
    intros Hin. repeat (destruct Hin as [Hin|Hin]; [discriminate Hin|]). exact Hin.
  - rewrite Hm. f_equal. apply Hd; discriminate.
Defined.

End ErrorPageFacts.

(* ===================================================================== *)
(** ** More on the server actions *)
(* ===================================================================== *)

Section ActionFacts.
Context {W : Type} `{Platform W}.
Import AuthUtils Zod UserActions.

Lemma updateProfileSchema_accepts (v : option FormDataEntryValue) (s : string) :
  updateProfileSchema_safeParse v = ParseSuccess s <->
  v = Some (FormString s) /\ 1 <= js_length s <= 100.
Proof.
  unfold updateProfileSchema_safeParse.
  destruct v as [[t|f]|]; try (split; [discriminate | intros [Hf _]; discriminate]).
  destruct (Z.ltb_spec (js_length t) 1), (Z.ltb_spec 100 (js_length t)); simpl;
    split; try discriminate; try (intros [Hf Hlen]; injection Hf as ->; lia).
  - intros Hs. injection Hs as ->. split; [reflexivity | lia].
  - intros [Hf _]. injection Hf as ->. reflexivity.
Qed.

(** With a session, a profile update whose name field is missing, is a
    file, is empty or is longer than 100 characters returns the failure
    that says so, and the world is the one session resolution left: the
    user table is not touched. A name of 1 to 100 characters is the only
    input that reaches the update. *)
Theorem updateProfile_rejects_invalid_name
    (formData : FormData) (w w' : W) (session : option Session) (u : SessionUser)
    (Hauth : auth w = (Returned session, w'))
    (Huser : optional_user session = Some u) :
  (FormData_get "name" formData = None ->
   updateProfile formData w = (Returned (Failure "Expected string, received null"), w')) /\
  (forall f, FormData_get "name" formData = Some (FormFile f) ->
   updateProfile formData w = (Returned (Failure "Expected string, received object"), w')) /\
  (FormData_get "name" formData = Some (FormString "") ->
   updateProfile formData w = (Returned (Failure "Name must not be empty"), w')) /\
  (forall s, FormData_get "name" formData = Some (FormString s) ->
   100 < js_length s ->
   updateProfile formData w = (Returned (Failure "Name too long"), w')) /\
  (forall s, FormData_get "name" formData = Some (FormString s) ->
   1 <= js_length s <= 100 ->
   updateProfile formData w =
     try_catch
       (updatedUser <- prisma_user_update (su_id u)
                         {| set_name := Some s; set_email := None |} ;;
        (revalidatePath "/dashboard" ;;;
         revalidatePath "/" ;;;
         ret (Success {| profile_name := or_null (user_name updatedUser) "";
                         profile_email := or_null (user_email updatedUser) "" |})))
       (fun error =>
          if instanceofError error && String.eqb (error_name error) "AuthenticationError"
          then ret (Failure "You must be signed in to update your profile")
          else ret (Failure "Failed to update profile. Please try again.")) w').
Proof.
  assert (Hstart : forall (A : Type) (k : SessionUser -> M W A) handler,
             try_catch (user <- requireUser ;; k user) handler w
             = try_catch (k u) handler w').
  { intros A k handler. unfold try_catch, bind.
    rewrite (requireUser_grants w w' session u Hauth Huser). reflexivity. }
  repeat split.
  - intros Hget. unfold updateProfile. rewrite Hstart, Hget. reflexivity.
  - intros f Hget. unfold updateProfile. rewrite Hstart, Hget. reflexivity.
  - intros Hget. unfold updateProfile. rewrite Hstart, Hget. reflexivity.
  - intros s Hget Hlen. unfold updateProfile. rewrite Hstart, Hget.
    unfold updateProfileSchema_safeParse.
    destruct (Z.ltb_spec (js_length s) 1); [lia|].
    destruct (Z.ltb_spec 100 (js_length s)); [|lia]. reflexivity.
  - intros s Hget Hlen. unfold updateProfile. rewrite Hstart, Hget.
    pose proof (proj2 (updateProfileSchema_accepts (Some (FormString s)) s)
                  (conj eq_refl Hlen)) as Hparse.
    rewrite Hparse. reflexivity.
Qed.

End ActionFacts.

Section ActionsOnTable.
Import Store AuthUtils Zod UserActions SettingsRoute.
Variable isEmail : string -> bool.

#[local] Hint Extern 0 (Platform World) => exact (platform isEmail) : typeclass_instances.

Lemma with_users_same (w : World) : with_users w (users w) = w.
Proof. destruct w; reflexivity. Qed.

Lemma user_update_dom (id : string) (data : UserUpdateInput) (w : World) :
  dom (users (snd (user_update id data w))) = dom (users w).
Proof.
  unfold user_update. destruct (users w !! id) as [row|] eqn:Hrow; [|reflexivity].
  assert (Hdom : dom (<[id:=apply_update data row]> (users w)) = dom (users w)).
  { apply dom_insert_lookup_L. eauto. }
  destruct (set_email data) as [e|];
    [destruct (email_used_by_other id e (users w)); [reflexivity|]|]; exact Hdom.
Qed.

(** A profile update changes nothing but the name of the record of the
    session's user: it adds and removes no record, and the identifier,
    the email and the creation timestamp of that record stay as they were.
    When the session outlives the record, the update fails and the table is
    as it was. *)
Theorem updateProfile_changes_only_the_name
    (formData : FormData) (w : World) (u : SessionUser)
    (Huser : optional_user (current_session w) = Some u) :
  dom (users (snd (updateProfile formData w))) = dom (users w) /\
  (forall row, users w !! su_id u = Some row ->
     exists row',
       users (snd (updateProfile formData w)) !! su_id u = Some row' /\
       user_id row' = user_id row /\
       user_email row' = user_email row /\
       user_createdAt row' = user_createdAt row) /\
  (users w !! su_id u = None ->
   exists text, updateProfile formData w = (Returned (Failure text), w)).
Proof.
  unfold updateProfile. run.
  rewrite (requireUser_grants w w _ u (table_auth isEmail w) Huser).
  destruct (updateProfileSchema_safeParse (FormData_get "name" formData)) as [n|errs].
  2:{ simpl. split; [reflexivity|]. split; [intros row Hrow; exists row; auto|].
      intros _. eexists. reflexivity. }
  pose proof (user_update_dom (su_id u) {| set_name := Some n; set_email := None |} w)
    as Hdom.
  unfold user_update in *. simpl in *.
  destruct (users w !! su_id u) as [row|] eqn:Hrow; simpl in *.
  - split; [exact Hdom|]. split; [|discriminate].
    intros row0 Hrow0. injection Hrow0 as <-.
    eexists. split; [apply lookup_insert_eq|]. simpl. auto.
  - split; [reflexivity|]. split; [discriminate|].
    intros _. eexists. reflexivity.
Qed.

Lemma sessions_without_own (w : World) (u : SessionUser) :
  optional_user (current_session w) = Some u ->
  sessions_without (su_id u) (current_session w) = None.
Proof.
  intros Hu. unfold sessions_without. rewrite Hu, String.eqb_refl. reflexivity.
Qed.

(** Deleting the account removes the record of the session's user and,
    with it, the session: the action answers success, the table has lost
    that record and nothing else, and the session of the request no longer
    resolves. When the record is already gone while the session still
    resolves, it answers the generic failure and leaves the world as it
    was. A second call never succeeds and changes nothing; after a
    successful deletion it answers the sign-in failure. *)
Theorem deleteAccount_removes_own_record
    (w : World) (u : SessionUser)
    (Huser : optional_user (current_session w) = Some u) :
  (forall row, users w !! su_id u = Some row ->
     deleteAccount w =
       (Returned (Success {| deleted := true |}),
        {| users := delete (su_id u) (users w);
           current_session := None;
           clock := clock w |})) /\
  (users w !! su_id u = None ->
   deleteAccount w =
     (Returned (Failure "Failed to delete account. Please try again."), w)) /\
  (forall result w1 result2 w2,
     deleteAccount w = (Returned result, w1) ->
     deleteAccount w1 = (Returned result2, w2) ->
     w2 = w1 /\
     (users w !! su_id u <> None ->
      result = Success {| deleted := true |} /\
      result2 = Failure "You must be signed in to delete your account") /\
     (users w !! su_id u = None ->
      result2 = Failure "Failed to delete account. Please try again.")).
Proof.
  assert (Hrun : forall w0 : World,
             optional_user (current_session w0) = Some u ->
             deleteAccount w0 =
               match users w0 !! su_id u with
               | Some _ => (Returned (Success {| deleted := true |}),
                            {| users := delete (su_id u) (users w0);
                               current_session := None;
                               clock := clock w0 |})
               | None => (Returned (Failure "Failed to delete account. Please try again."),
                          w0)
               end).
  { intros w0 Hu0. unfold deleteAccount. run.
    rewrite (requireUser_grants w0 w0 _ u (table_auth isEmail w0) Hu0).
    unfold transaction, user_delete. run.
    destruct (users w0 !! su_id u); [|reflexivity].
    simpl. rewrite (sessions_without_own w0 u Hu0). reflexivity. }
  split; [intros row Hrow; rewrite (Hrun w Huser), Hrow; reflexivity|].
  split; [intros Hrow; rewrite (Hrun w Huser), Hrow; reflexivity|].
  intros result w1 result2 w2. rewrite (Hrun w Huser).
  destruct (users w !! su_id u) as [row|] eqn:Hrow; intros Hfirst;
    injection Hfirst as <- <-.
  - set (w1 := {| users := delete (su_id u) (users w); current_session := None;
                  clock := clock w |}).
    rewrite (deleteAccount_denies (H:=platform isEmail) w1 w1 None eq_refl eq_refl).
    intros Hsecond. injection Hsecond as <- <-.
    split; [reflexivity|]. split; [auto | congruence].
  - rewrite (Hrun w Huser), Hrow.
    intros Hsecond. injection Hsecond as <- <-.
    split; [reflexivity|]. split; [congruence | auto].
Qed.

(** A session that outlives its account finds nothing: once the record
    of the session's user is gone, the statistics action answers "User not
    found", the settings read answers 404, a valid settings update answers
    500, and none of them writes to the table. *)
Theorem stale_session_finds_no_account
    (w : World) (u : SessionUser) (body : json) (data : SettingsInput)
    (Huser : optional_user (current_session w) = Some u)
    (Hgone : users w !! su_id u = None)
    (Hvalid : updateSettingsSchema_safeParse (W:=World) body = ParseSuccess data) :
  getUserStats w = (Returned (Failure "User not found"), w) /\
  GET w = (Returned (Response_json (JObj [("error", JStr "User not found")]) 404), w) /\
  PUT {| request_body := ValidJson body |} w =
    (Returned (Response_json (JObj [("error", JStr "Internal server error")]) 500), w).
Proof.
  split; [|split].
  - unfold getUserStats. run.
    destruct (requireAuth_grants w w _ u (table_auth isEmail w) Huser) as [e He].
    rewrite He. unfold user_findUnique. simpl. rewrite Hgone. reflexivity.
  - unfold GET. run.
    rewrite (requireApiAuth_grants w w _ u (table_auth isEmail w) Huser).
    unfold user_findUnique. simpl. rewrite Hgone. reflexivity.
  - unfold PUT. run.
    rewrite (requireApiAuth_grants w w _ u (table_auth isEmail w) Huser).
    unfold Request_json. run. rewrite Hvalid.
    unfold user_update. simpl. rewrite Hgone. reflexivity.
Qed.

(** The statistics action reads and does not write, and it counts whole
    days: when the clock moves on by n days the account age grows by n,
    and the age is 0 exactly during the first day of the account. *)
Theorem getUserStats_counts_whole_days
    (w : World) (u : SessionUser) (row : UserRow) (n : Z)
    (Huser : optional_user (current_session w) = Some u)
    (Hrow : users w !! su_id u = Some row) :
  exists age,
    getUserStats w = (Returned (Success {| accountAge := age; lastSignIn := None |}), w) /\
    getUserStats {| users := users w; current_session := current_session w;
                    clock := clock w + n * 86400000 |} =
      (Returned (Success {| accountAge := age + n; lastSignIn := None |}),
       {| users := users w; current_session := current_session w;
          clock := clock w + n * 86400000 |}) /\
    (age = 0 <-> 0 <= clock w - user_createdAt row < 86400000).
Proof.
  set (later := {| users := users w; current_session := current_session w;
                   clock := clock w + n * 86400000 |}).
  assert (Hrun : forall w0 : World,
             optional_user (current_session w0) = Some u ->
             users w0 !! su_id u = Some row ->
             getUserStats w0 =
               (Returned (Success {| accountAge := (clock w0 - user_createdAt row) / 86400000;
                                     lastSignIn := None |}), w0)).
  { intros w0 Hu0 Hrow0. unfold getUserStats. run.
    destruct (requireAuth_grants w0 w0 _ u (table_auth isEmail w0) Hu0) as [e He].
    rewrite He. unfold user_findUnique. simpl. rewrite Hrow0. reflexivity. }
  exists ((clock w - user_createdAt row) / 86400000).
  split; [exact (Hrun w Huser Hrow)|]. split.
  - rewrite (Hrun later Huser Hrow). subst later. simpl.
    replace (clock w + n * 86400000 - user_createdAt row)
      with (clock w - user_createdAt row + n * 86400000) by lia.
    rewrite Z.div_add by lia. reflexivity.
  - pose proof (Z.div_mod (clock w - user_createdAt row) 86400000).
    pose proof (Z.mod_pos_bound (clock w - user_createdAt row) 86400000).
    split; intros; [lia|].
    apply Z.div_small. lia.
Qed.

End ActionsOnTable.

(* ===================================================================== *)
(** ** More on the settings route *)
(* ===================================================================== *)

Section SettingsFacts.
Context {W : Type} `{Platform W}.
Import AuthUtils Zod SettingsRoute.

Lemma PUT_returns_with_auth
    (request : Request) (w w' : W) (session : option Session) :
  auth w = (Returned session, w') ->
  exists response w2,
    PUT request w = (Returned response, w2) /\
    In (status response) [200; 400; 401; 409; 500] /\
    (status response = 401 <-> optional_user session = None).
Proof.
  intros Hauth. unfold PUT, requireApiAuth. run. rewrite Hauth.
  destruct (optional_user session) as [u|]; simpl.
  2:{ do 2 eexists. split; [reflexivity|]. simpl. tauto. }
  unfold Request_json.
  destruct (request_body request) as [value|message]; run.
  - destruct (updateSettingsSchema_safeParse value) as [data|errors].
    + destruct (prisma_user_update (su_id u) _ w') as [[row|e1] w2]; simpl.
      * do 2 eexists. split; [reflexivity|]. simpl.
        split; [tauto | split; discriminate].
      * destruct (instanceofError e1 && includes (error_message e1) "Unique constraint");
          do 2 eexists; (split; [reflexivity|]); simpl;
          (split; [tauto | split; discriminate]).
    + do 2 eexists. split; [reflexivity|]. simpl.
      split; [tauto | split; discriminate].
  - destruct (includes message "Unique constraint");
      do 2 eexists; (split; [reflexivity|]); simpl;
      (split; [tauto | split; discriminate]).
Qed.

Lemma GET_returns_with_auth (w w' : W) (session : option Session) :
  auth w = (Returned session, w') ->
  exists response w2,
    GET w = (Returned response, w2) /\
    In (status response) [200; 401; 404; 500] /\
    (status response = 401 <-> optional_user session = None).
Proof.
  intros Hauth. unfold GET, requireApiAuth. run. rewrite Hauth.
  destruct (optional_user session) as [u|]; simpl.
  2:{ do 2 eexists. split; [reflexivity|]. simpl. tauto. }
  destruct (prisma_user_findUnique (su_id u) w') as [[[row|]|e1] w2]; simpl;
    do 2 eexists; (split; [reflexivity|]); simpl;
    (split; [tauto | split; discriminate]).
Qed.

(** The settings handlers throw exactly when [auth()] throws, and then
    the same value: everything after the guard is inside [try]/[catch],
    the guard itself is not. *)
Theorem settings_handlers_throw_only_with_auth (request : Request) (w : W) (e : Thrown) :
  (fst (PUT request w) = Threw e <-> fst (auth w) = Threw e) /\
  (fst (GET w) = Threw e <-> fst (auth w) = Threw e).
Proof.
  destruct (auth w) as [[session|e'] w1] eqn:Hauth; simpl.
  - destruct (PUT_returns_with_auth request w w1 session Hauth) as (r & w2 & -> & _).
    destruct (GET_returns_with_auth w w1 session Hauth) as (r' & w3 & -> & _).
    simpl. repeat split; discriminate.
  - unfold PUT, GET, requireApiAuth. run. rewrite Hauth. simpl.
    repeat split; congruence.
Qed.

(** When session resolution returns, the settings update answers one of
    200, 400, 401, 409 and 500 and the settings read one of 200, 401, 404
    and 500, and either answers 401 exactly when the session has no
    user. *)
Theorem settings_status_codes
    (request : Request) (w w' : W) (session : option Session)
    (Hauth : auth w = (Returned session, w')) :
  (exists response w2,
      PUT request w = (Returned response, w2) /\
      In (status response) [200; 400; 401; 409; 500] /\
      (status response = 401 <-> optional_user session = None)) /\
  (exists response w2,
      GET w = (Returned response, w2) /\
      In (status response) [200; 401; 404; 500] /\
      (status response = 401 <-> optional_user session = None)).
Proof.
  split.
  - exact (PUT_returns_with_auth request w w' session Hauth).
  - exact (GET_returns_with_auth w w' session Hauth).
Qed.

(** The settings schema accepts exactly the JSON objects whose name, if
    the key is there, is a string of 1 to 100 characters and whose email,
    if the key is there, is a string that matches the email pattern; a
    key with the value null is not an absent key, and every other key is
    dropped. What it hands on is the two values and nothing else. *)
Theorem updateSettingsSchema_accepts (body : json) (data : SettingsInput) :
  updateSettingsSchema_safeParse body = ParseSuccess data <->
  exists fields,
    body = JObj fields /\
    ((json_get "name" fields = None /\ input_name data = None) \/
     (exists s, json_get "name" fields = Some (JStr s) /\ input_name data = Some s /\
                1 <= js_length s <= 100)) /\
    ((json_get "email" fields = None /\ input_email data = None) \/
     (exists s, json_get "email" fields = Some (JStr s) /\ input_email data = Some s /\
                zod_isEmail s = true)).
Proof.
  unfold updateSettingsSchema_safeParse. split.
  - intros Hparse. destruct body as [| | | | |fields]; try discriminate Hparse.
    exists fields. split; [reflexivity|]. revert Hparse.
    unfold parse_name, parse_email.
    destruct (json_get "name" fields) as [[| | |s| |]|];
      destruct (json_get "email" fields) as [[| | |t| |]|];
      simpl; try discriminate;
      repeat match goal with
             | |- context [js_length ?x <? 1] => destruct (Z.ltb_spec (js_length x) 1)
             | |- context [100 <? js_length ?x] => destruct (Z.ltb_spec 100 (js_length x))
             | |- context [zod_isEmail ?x] => destruct (zod_isEmail x) eqn:?
             end; simpl; try discriminate;
      intros Hd; injection Hd as <-; simpl; split;
      solve [left; auto | right; eexists; repeat split; eauto; lia].
  - intros (fields & -> & Hname & Hemail). unfold parse_name, parse_email.
    destruct data as [n m]. simpl in *.
    destruct Hname as [[-> ->]|(s & -> & -> & Hlen)];
      destruct Hemail as [[-> ->]|(t & -> & -> & Hok)]; simpl;
      repeat match goal with
             | |- context [js_length ?x <? 1] =>
                 destruct (Z.ltb_spec (js_length x) 1); [lia|]
             | |- context [100 <? js_length ?x] =>
                 destruct (Z.ltb_spec 100 (js_length x)); [lia|]
             end; rewrite ?Hok; reflexivity.
Qed.

End SettingsFacts.

Section SettingsOnTable.
Import Store AuthUtils Zod SettingsRoute.
Variable isEmail : string -> bool.

#[local] Hint Extern 0 (Platform World) => exact (platform isEmail) : typeclass_instances.

Lemma email_used_by_other_insert (id email : string) (row : UserRow)
    (table : gmap string UserRow) :
  email_used_by_other id email (<[id:=row]> table) = email_used_by_other id email table.
Proof.
  unfold email_used_by_other. apply bool_decide_ext.
  rewrite !map_Exists_lookup.
  split; intros (i & r & Hlook & Hne & Hemail); exists i, r.
  - rewrite lookup_insert_ne in Hlook by congruence. auto.
  - rewrite lookup_insert_ne by congruence. auto.
Qed.

Lemma apply_update_twice (data : UserUpdateInput) (row : UserRow) :
  apply_update data (apply_update data row) = apply_update data row.
Proof.
  unfold apply_update. simpl.
  destruct (set_name data), (set_email data); reflexivity.
Qed.

Lemma PUT_ok_inv (request : Request) (w w1 : World) (response : Response) :
  PUT request w = (Returned response, w1) ->
  status response = 200 ->
  exists u row body data,
    optional_user (current_session w) = Some u /\
    users w !! su_id u = Some row /\
    request_body request = ValidJson body /\
    updateSettingsSchema_safeParse (W:=World) body = ParseSuccess data.
Proof.
  unfold PUT, requireApiAuth. run.
  destruct (optional_user (current_session w)) as [u|] eqn:Hu; simpl.
  2:{ intros Hres. injection Hres as <- _. discriminate. }
  unfold Request_json. destruct (request_body request) as [body|message] eqn:Hbody; run.
  - destruct (updateSettingsSchema_safeParse body) as [data|errors] eqn:Hparse.
    + unfold user_update. simpl.
      destruct (users w !! su_id u) as [row|] eqn:Hrow; simpl.
      * intros _ _. exists u, row, body, data. auto.
      * intros Hres. injection Hres as <- _. discriminate.
    + intros Hres. injection Hres as <- _. discriminate.
  - destruct (includes message "Unique constraint");
      intros Hres; injection Hres as <- _; discriminate.
Qed.

(** A settings update that names neither name nor email, the empty
    object among them, answers 200 with the settings as they are and
    leaves the world as it was. *)
Theorem PUT_without_fields_changes_nothing
    (w : World) (u : SessionUser) (row : UserRow) (fields : list (string * json))
    (Huser : optional_user (current_session w) = Some u)
    (Hrow : users w !! su_id u = Some row)
    (Hname : json_get "name" fields = None)
    (Hemail : json_get "email" fields = None) :
  PUT {| request_body := ValidJson (JObj fields) |} w =
    (Returned (Response_json
                 (JObj [("settings", settings_json row);
                        ("message", JStr "Settings updated successfully")]) 200), w).
Proof.
  assert (Hvalid : updateSettingsSchema_safeParse (W:=World) (JObj fields)
                   = ParseSuccess {| input_name := None; input_email := None |}).
  { unfold updateSettingsSchema_safeParse. rewrite Hname, Hemail. reflexivity. }
  rewrite (PUT_on_table isEmail w u row _ _ Huser Hrow Hvalid). simpl.
  assert (Hsame : apply_update {| set_name := None; set_email := None |} row = row)
    by (destruct row; reflexivity).
  rewrite Hsame, (insert_id _ _ _ Hrow), with_users_same. reflexivity.
Qed.

(** A settings update that answered 200 can be repeated and read back:
    the same request on the world it left answers the same response and
    changes nothing more, and the settings read answers 200 with the very
    settings the update returned. *)
Theorem PUT_is_idempotent_and_read_back
    (request : Request) (w w1 : World) (response : Response)
    (Hput : PUT request w = (Returned response, w1))
    (Hok : status response = 200) :
  PUT request w1 = (Returned response, w1) /\
  exists settings,
    body response = JObj [("settings", settings);
                          ("message", JStr "Settings updated successfully")] /\
    GET w1 = (Returned (Response_json (JObj [("settings", settings)]) 200), w1).
Proof.
  destruct (PUT_ok_inv request w w1 response Hput Hok)
    as (u & row & body & data & Hu & Hrow & Hbody & Hvalid).
  destruct request as [rb]. simpl in Hbody. subst rb.
  rewrite (PUT_on_table isEmail w u row body data Hu Hrow Hvalid) in Hput.
  set (d := {| set_name := input_name data; set_email := input_email data |}) in *.
  destruct (match input_email data with
            | Some e => email_used_by_other (su_id u) e (users w)
            | None => false
            end) eqn:Hfree.
  { injection Hput as <- _. discriminate. }
  injection Hput as <- <-.
  assert (Hrow1 : users (with_users w (<[su_id u:=apply_update d row]> (users w)))
                    !! su_id u = Some (apply_update d row))
    by (simpl; apply lookup_insert_eq).
  split.
  - rewrite (PUT_on_table isEmail
               (with_users w (<[su_id u:=apply_update d row]> (users w)))
               u (apply_update d row) body data Hu Hrow1 Hvalid).
    fold d. simpl users.
    assert (Hfree1 : match input_email data with
                     | Some e => email_used_by_other (su_id u) e
                                   (<[su_id u:=apply_update d row]> (users w))
                     | None => false
                     end = false).
    { destruct (input_email data); [rewrite email_used_by_other_insert|]; exact Hfree. }
    rewrite Hfree1, apply_update_twice, insert_insert_eq. reflexivity.
  - eexists. split; [reflexivity|].
    unfold GET. run.
    rewrite (requireApiAuth_grants
               (with_users w (<[su_id u:=apply_update d row]> (users w))) _ _ u
               (table_auth isEmail _) Hu).
    unfold user_findUnique. simpl. rewrite lookup_insert_eq. reflexivity.
Qed.

(** Whatever the request, a settings update adds and removes no record
    and leaves the identifier and the creation timestamp of the session
    user's record as they were; the name and the email of that record
    change only to a value the schema let through. *)
Theorem PUT_keeps_identity
    (request : Request) (w : World) (u : SessionUser) (row : UserRow)
    (Huser : optional_user (current_session w) = Some u)
    (Hrow : users w !! su_id u = Some row) :
  dom (users (snd (PUT request w))) = dom (users w) /\
  exists row',
    users (snd (PUT request w)) !! su_id u = Some row' /\
    user_id row' = user_id row /\
    user_createdAt row' = user_createdAt row /\
    (user_name row' = user_name row \/
     exists s, user_name row' = Some s /\ 1 <= js_length s <= 100) /\
    (user_email row' = user_email row \/
     exists s, user_email row' = Some s /\ isEmail s = true).
Proof.
  destruct request as [[body|message]].
  - destruct (updateSettingsSchema_safeParse (W:=World) body) as [data|errors] eqn:Hvalid.
    + rewrite (PUT_on_table isEmail w u row body data Huser Hrow Hvalid).
      apply (updateSettingsSchema_accepts (H:=platform isEmail)) in Hvalid.
      destruct Hvalid as (fields & _ & Hname & Hemail).
      destruct (match input_email data with
                | Some e => email_used_by_other (su_id u) e (users w)
                | None => false
                end); simpl.
      { split; [reflexivity|]. exists row. repeat split; auto. }
      split; [apply dom_insert_lookup_L; eauto|].
      eexists. split; [apply lookup_insert_eq|]. simpl.
      split; [reflexivity|]. split; [reflexivity|]. split.
      * destruct Hname as [[_ ->]|(s & _ & -> & Hlen)]; [left; reflexivity|].
        right. eauto.
      * destruct Hemail as [[_ ->]|(s & _ & -> & Hok)]; [left; reflexivity|].
        right. eauto.
    + rewrite (PUT_schema_failure isEmail body errors w u Huser Hvalid). simpl.
      split; [reflexivity|]. exists row. repeat split; auto.
  - rewrite (PUT_unparseable_body isEmail message w u Huser). simpl.
    split; [reflexivity|]. exists row. repeat split; auto.
Qed.

End SettingsOnTable.

(* ===================================================================== *)
(** ** The forms *)
(* ===================================================================== *)

Section SignInFormFacts.
Import SignInForm.
Context {W : Type} `{WebAuthn W}.

(** The passkey handler never throws and never leaves the form loading:
    whatever [signIn] does, the handler returns a state in which
    [isLoading] is false and the typed email and the mode are what they
    were. *)
Theorem handlePasskeyAuth_settles (action : Mode) (st : FormState) (w : W) :
  exists st' w',
    handlePasskeyAuth action st w = (Returned st', w') /\
    isLoading st' = false /\
    email st' = email st /\
    mode st' = mode st.
Proof.
  unfold handlePasskeyAuth. run.
  destruct action.
  - destruct (signIn "passkey" AuthenticateAction w) as [[[]|err] w1]; simpl;
      do 2 eexists; repeat split.
  - destruct (String.eqb (email st) ""); simpl; [do 2 eexists; repeat split|].
    destruct (signIn "passkey" (RegisterAction (email st)) w) as [[[]|err] w1]; simpl;
      do 2 eexists; repeat split.
Qed.

(** While the submit button is enabled, a click reaches [signIn]: the
    handler calls it once, with the register action and the typed email in
    register mode and with the authenticate action otherwise, and the
    error it shows afterwards is none when the call returned and the
    message of the thrown error, or the generic text for a thrown value
    that is no [Error], when it threw. The "Email is required" branch of
    the handler cannot be reached through the button. *)
Theorem enabled_submit_reaches_signIn (st : FormState) (w : W)
    (Henabled : submitDisabled st = false) :
  (mode st = register -> email st <> "") /\
  handlePasskeyAuth (mode st) st w =
    match signIn "passkey"
            (match mode st with
             | register => RegisterAction (email st)
             | signin => AuthenticateAction
             end) w with
    | (Returned _, w') =>
        (Returned {| email := email st; isLoading := false; error := None;
                     mode := mode st |}, w')
    | (Threw err, w') =>
        (Returned {| email := email st; isLoading := false;
                     error := Some (if instanceofError err then error_message err
                                    else "An error occurred. Please try again.");
                     mode := mode st |}, w')
    end.
Proof.
  unfold submitDisabled in Henabled. apply orb_false_elim in Henabled.
  destruct Henabled as [_ Hmode]. unfold handlePasskeyAuth. run.
  destruct (mode st) eqn:Hm; simpl in *.
  - split; [discriminate|].
    destruct (signIn "passkey" AuthenticateAction w) as [[[]|err] w1];
      unfold setIsLoading, setError; simpl; rewrite Hm; reflexivity.
  - rewrite Hmode. split.
    + intros _ Hempty. rewrite Hempty in Hmode. discriminate.
    + destruct (signIn "passkey" (RegisterAction (email st)) w) as [[[]|err] w1];
        unfold setIsLoading, setError; simpl; rewrite Hm; reflexivity.
Qed.

End SignInFormFacts.

Section ProfileFormFacts.
Import AuthUtils UserActions UpdateProfileForm.
Context {W : Type} `{Platform W}.

Lemma updateProfile_returns (formData : FormData) (w : W) :
  exists result w', updateProfile formData w = (Returned result, w').
Proof.
  unfold updateProfile, try_catch.
  match goal with
  | |- context [match ?b w with _ => _ end] => destruct (b w) as [[r|e] w1]
  end.
  - do 2 eexists. reflexivity.
  - destruct (instanceofError e && String.eqb (error_name e) "AuthenticationError");
      do 2 eexists; reflexivity.
Qed.

(** Submitting the profile form always ends with a message on the form:
    the success message together with the name the server returned, or
    the error text of the action with the typed name kept. Without a
    session the message is the sign-in error of the action. *)
Theorem handleSubmit_always_reports (formData : FormData) (st : FormState) (w : W) :
  (exists st' w',
      handleSubmit formData st w = (Returned st', w') /\
      ((exists data,
           fst (updateProfile formData w) = Returned (Success data) /\
           name st' = profile_name data /\
           message st' = Some (success, "Profile updated successfully!")) \/
       (exists text,
           fst (updateProfile formData w) = Returned (Failure text) /\
           name st' = name st /\
           message st' = Some (error, text)))) /\
  (forall session,
      fst (auth w) = Returned session -> optional_user session = None ->
      fst (handleSubmit formData st w) =
        Returned {| name := name st;
                    message := Some (error, "You must be signed in to update your profile")
                 |}).
Proof.
  split.
  - unfold handleSubmit. unfold bind at 1.
    destruct (updateProfile_returns formData w) as (result & w' & Hrun).
    rewrite Hrun. destruct result as [data|text]; simpl;
      do 2 eexists; (split; [reflexivity|]); [left | right]; eexists; repeat split.
  - intros session Hauth Hnone.
    assert (Ha : auth w = (Returned session, snd (auth w))).
    { destruct (auth w) as [r w1]. simpl in *. congruence. }
    unfold handleSubmit. unfold bind at 1.
    rewrite (updateProfile_denies formData _ _ _ Ha Hnone). reflexivity.
Qed.

End ProfileFormFacts.

(* ===================================================================== *)
(** ** The setup check *)
(* ===================================================================== *)

Section CheckSetupFacts.
Import CheckSetup.

Lemma not_In_by_eqb (x : string) (l : list string) :
  existsb (String.eqb x) l = false -> ~ In x l.
Proof.
  intros Hno Hin.
  assert (Hyes : existsb (String.eqb x) l = true).
  { apply existsb_exists. exists x. split; [exact Hin | apply String.eqb_refl]. }
  congruence.
Qed.

Lemma In_by_eqb (x : string) (l : list string) :
  existsb (String.eqb x) l = true -> In x l.
Proof.
  intros Hyes. apply existsb_exists in Hyes. destruct Hyes as (y & Hin & Heq).
  apply String.eqb_eq in Heq. congruence.
Qed.

(** The script prints nothing exactly when both the .env file and the
    generated Prisma client are there, so two branches of [main] never
    show in its output: the line that says the project is ready, and the
    warning form of step 3 that tells to run the database migrations.
    Whenever the script prints, step 3 is shown as pending. *)
Theorem check_setup_dead_branches (checkFileExists : string -> bool) :
  (script checkFileExists = [] <->
   checkFileExists ".env" = true /\ checkFileExists "app/generated/prisma" = true) /\
  ~ In readyLine (script checkFileExists) /\
  ~ In (stepHeading "3" "Setup Database" "warning") (script checkFileExists) /\
  (script checkFileExists <> [] ->
   In (stepHeading "3" "Setup Database" "pending") (script checkFileExists) /\
   In (stepHeading "4" "Start Development" "pending") (script checkFileExists)).
Proof.
  unfold script, main.
  destruct (checkFileExists ".env"), (checkFileExists "app/generated/prisma");
    cbn [negb orb andb].
  - split; [tauto|]. split; [tauto|]. split; [tauto|]. congruence.
  - split; [split; [discriminate | intros [_ Hf]; discriminate]|].
    split; [apply not_In_by_eqb; vm_compute; reflexivity|].
    split; [apply not_In_by_eqb; vm_compute; reflexivity|].
    intros _. split; apply In_by_eqb; vm_compute; reflexivity.
  - split; [split; [discriminate | intros [Hf _]; discriminate]|].
    split; [apply not_In_by_eqb; vm_compute; reflexivity|].
    split; [apply not_In_by_eqb; vm_compute; reflexivity|].
    intros _. split; apply In_by_eqb; vm_compute; reflexivity.
  - split; [split; [discriminate | intros [Hf _]; discriminate]|].
    split; [apply not_In_by_eqb; vm_compute; reflexivity|].
    split; [apply not_In_by_eqb; vm_compute; reflexivity|].
    intros _. split; apply In_by_eqb; vm_compute; reflexivity.
Qed.

End CheckSetupFacts.

(* ===================================================================== *)
(** ** More concrete runs *)
(* ===================================================================== *)

Section MoreRuns.
Import Store Scenario Cases Proxy AuthUtils PageGuard Pages Zod UserActions SettingsRoute.

Lemma proxy_redirects_only_to_sign_in_witness :
  isRouteMatch (nextUrl_pathname dashboard_request) authRoutes = false /\
  config_matcher "/auth/signin" = false.
Proof.
  destruct (@proxy_redirects_only_to_sign_in World P dashboard_request signed_out signed_out
              {| url_origin := localhost; url_pathname := "/auth/signin";
                 url_searchParams := [("callbackUrl", "/dashboard")] |} eq_refl)
    as (_ & Hroute & Hmatcher).
  split; [exact Hroute | exact Hmatcher].
Defined.

Lemma proxy_stricter_than_callback_witness :
  AuthConfig.authorized (Some alice_session) "/dashboard" = true /\
  AuthConfig.authorized_protected_home (Some alice_session) "/dashboard" = true.
Proof.
  exact (@proxy_stricter_than_callback World P dashboard_request signed_in signed_in
           (Some alice_session) eq_refl eq_refl eq_refl).
Defined.



Lemma pages_no_redirect_loop_witness :
  @SignInPage World P signed_out = (Returned (Rendered SignInFormView), signed_out) /\
  @DashboardPage World P signed_out = (Returned (Redirect "/auth/signin"), signed_out).
Proof.
  destruct (@pages_no_redirect_loop World P signed_out signed_out None eq_refl)
    as [(user & Hu & _)|(_ & Hsign & Hdash & _)].
  - discriminate Hu.
  - split; [exact Hsign | exact Hdash].
Defined.

Lemma DashboardPage_fields_witness :
  exists session user,
    @auth World P signed_in = (Returned session, signed_in) /\
    optional_user session = Some user /\
    "alice" = su_id user.
Proof.
  destruct (@DashboardPage_fields World P signed_in signed_in
              {| shown_name := "Alice"; shown_email := "alice@example.com";
                 shown_id := "alice" |} eq_refl)
    as (session & user & Hauth & Hu & Hid & _).
  exists session, user. auto.
Defined.

Lemma updateProfile_rejects_invalid_name_witness :
  @updateProfile World P [("userId", FormString "bob")] signed_in
    = (Returned (Failure "Expected string, received null"), signed_in) /\
  @updateProfile World P [("name", FormString "")] signed_in
    = (Returned (Failure "Name must not be empty"), signed_in).
Proof.
  split.
  - exact (proj1 (@updateProfile_rejects_invalid_name World P
                    [("userId", FormString "bob")] signed_in signed_in
                    (Some alice_session) alice_user eq_refl eq_refl) eq_refl).
  - exact (proj1 (proj2 (proj2 (@updateProfile_rejects_invalid_name World P
                    [("name", FormString "")] signed_in signed_in
                    (Some alice_session) alice_user eq_refl eq_refl))) eq_refl).
Defined.

Lemma updateProfile_changes_only_the_name_witness :
  dom (users (snd (@updateProfile World P form_naming_bob signed_in)))
    = dom (users signed_in).
Proof.
  exact (proj1 (updateProfile_changes_only_the_name has_at form_naming_bob signed_in
                  alice_user eq_refl)).
Defined.

Lemma deleteAccount_removes_own_record_witness :
  @deleteAccount World P signed_in
    = (Returned (Success {| deleted := true |}),
       {| users := delete "alice" (users signed_in); current_session := None;
          clock := clock signed_in |}) /\
  @deleteAccount World P stale
    = (Returned (Failure "Failed to delete account. Please try again."), stale).
Proof.
  split.
  - exact (proj1 (deleteAccount_removes_own_record has_at signed_in alice_user eq_refl)
             alice eq_refl).
  - exact (proj1 (proj2 (deleteAccount_removes_own_record has_at stale alice_user eq_refl))
             eq_refl).
Defined.

Lemma stale_session_finds_no_account_witness :
  @getUserStats World P stale = (Returned (Failure "User not found"), stale).
Proof.
  exact (proj1 (stale_session_finds_no_account has_at stale alice_user
                  (JObj [("name", JStr "Alice B")])
                  {| input_name := Some "Alice B"; input_email := None |}
                  eq_refl eq_refl eq_refl)).
Defined.

Lemma getUserStats_counts_whole_days_witness :
  exists age,
    @getUserStats World P signed_in
      = (Returned (Success {| accountAge := age; lastSignIn := None |}), signed_in) /\
    @getUserStats World P (mkWorld table (Some alice_session) (216000000 + 3 * 86400000))
      = (Returned (Success {| accountAge := age + 3; lastSignIn := None |}),
         mkWorld table (Some alice_session) (216000000 + 3 * 86400000)).
Proof.
  destruct (getUserStats_counts_whole_days has_at signed_in alice_user alice 3
              eq_refl eq_refl) as (age & Hnow & Hlater & _).
  exists age. split; [exact Hnow | exact Hlater].
Defined.

Lemma settings_status_codes_witness :
  exists response w2,
    @PUT World P rename_request signed_out = (Returned response, w2) /\
    In (status response) [200; 400; 401; 409; 500].
Proof.
  destruct (proj1 (@settings_status_codes World P rename_request signed_out signed_out
                     None eq_refl)) as (response & w2 & Hrun & Hin & _).
  exists response, w2. split; [exact Hrun | exact Hin].
Defined.

Lemma PUT_without_fields_changes_nothing_witness :
  @PUT World P (mkRequest (ValidJson (JObj []))) signed_in
    = (Returned (Response_json
                   (JObj [("settings", settings_json alice);
                          ("message", JStr "Settings updated successfully")]) 200),
       signed_in).
Proof.
  exact (PUT_without_fields_changes_nothing has_at signed_in alice_user alice []
           eq_refl eq_refl eq_refl eq_refl).
Defined.

Lemma PUT_is_idempotent_and_read_back_witness :
  exists response w1,
    @PUT World P rename_request signed_in = (Returned response, w1) /\
    @PUT World P rename_request w1 = (Returned response, w1).
Proof.
  eexists. eexists. split; [reflexivity|].
  exact (proj1 (PUT_is_idempotent_and_read_back has_at rename_request signed_in _ _
                  eq_refl eq_refl)).
Defined.

Lemma PUT_keeps_identity_witness :
  dom (users (snd (@PUT World P rename_request signed_in))) = dom (users signed_in).
Proof.
  exact (proj1 (PUT_keeps_identity has_at rename_request signed_in alice_user alice
                  eq_refl eq_refl)).
Defined.

Lemma enabled_submit_reaches_signIn_witness :
  @SignInForm.handlePasskeyAuth _ logging SignInForm.register register_form []
    = (Returned register_form, [SignInForm.RegisterAction "carol@example.com"]).
Proof.
  exact (proj2 (@enabled_submit_reaches_signIn _ logging register_form [] eq_refl)).
Defined.

End MoreRuns.
